(** * catholic_calendar: event normalisation and iCalendar serialisation

    A shallow embedding of [catholic_calendar/calendar.py] (and of the
    configuration step of [catholic_calendar/cli.py]) together with the
    properties stated about it.

    Conventions of the embedding.
    - A Python [str] is a [string]; every [ascii] stands for one character
      (a code point below 256), so [String.length] is Python's [len].
    - A raised exception is the [Error] case of [result]; it carries the
      exception class and the message, as the source writes them.
    - Python objects reaching the code are values of [value]: [None], [bool],
      [int], [float], [str], [list], [dict] (in insertion order),
      [datetime.date] and naive, whole-second [datetime.datetime]. A float is
      given by what the interpreter answers for it where the code uses it
      (its text, its truth value, its date as a timestamp). Bytes, tuples,
      sets and user-defined classes are not represented.
    - Library behaviour that depends on the interpreter follows CPython 3.9
      and 3.10 ([python_requires='>=3.9']); it is pointed out where it is
      used. *)

From Stdlib Require Import ZArith List String Ascii Bool Lia Permutation Sorted.
From Stdlib Require Import Numbers.DecimalString Numbers.DecimalZ.
From Equations Require Import Equations.
Import ListNotations.
Open Scope string_scope.
Open Scope Z_scope.

Set Implicit Arguments.
Set Warnings "-register-all".

(** ** Exceptions and the error monad *)

Inductive exn_class : Type :=
| KeyError | ValueError | TypeError | AttributeError | OverflowError.

(** An exception object: its class and its message. *)
Inductive exn : Type := Exn (cls : exn_class) (msg : string).

Definition exn_cls (e : exn) : exn_class := let 'Exn c _ := e in c.
Definition exn_msg (e : exn) : string := let 'Exn _ m := e in m.

Inductive result (A : Type) : Type :=
| Ok (a : A)
| Error (e : exn).
Arguments Ok {A} a.
Arguments Error {A} e.

Definition bind {A B : Type} (m : result A) (k : A -> result B) : result B :=
  match m with
  | Ok a => k a
  | Error e => Error e
  end.

Notation "x <- m ;; k" := (bind m (fun x => k))
  (at level 61, m at next level, right associativity).

(** Evaluation of a comprehension, left to right; the first exception ends it. *)
Section MapM.
Context {A B : Type} (f : A -> result B).

Fixpoint mapM (l : list A) : result (list B) :=
  match l with
  | [] => Ok []
  | x :: xs => y <- f x ;; ys <- mapM xs ;; Ok (y :: ys)
  end.
End MapM.

(** ** Strings *)

Module Str.

(** [s[:n]] *)
Fixpoint take (n : nat) (s : string) : string :=
  match n, s with
  | S n', String c s' => String c (take n' s')
  | _, _ => ""
  end.

(** [s[n:]] *)
Fixpoint drop (n : nat) (s : string) : string :=
  match n, s with
  | S n', String _ s' => drop n' s'
  | _, _ => s
  end.

(** [sep.join(l)] *)
Fixpoint join (sep : string) (l : list string) : string :=
  match l with
  | [] => ""
  | [x] => x
  | x :: xs => x ++ sep ++ join sep xs
  end.

(** [s.replace(old, new)] for a pattern [old] of one character. *)
Fixpoint replace (old : ascii) (new : string) (s : string) : string :=
  match s with
  | "" => ""
  | String c s' =>
      if Ascii.eqb c old then new ++ replace old new s'
      else String c (replace old new s')
  end.

(** [c in s] for a character [c]. *)
Fixpoint contains (c : ascii) (s : string) : bool :=
  match s with
  | "" => false
  | String c' s' => Ascii.eqb c' c || contains c s'
  end.

(** [s.count(c)] for a character [c]. *)
Fixpoint count (c : ascii) (s : string) : nat :=
  match s with
  | "" => O
  | String c' s' => ((if Ascii.eqb c' c then 1 else 0) + count c s')%nat
  end.

Definition chr (n : nat) : ascii := ascii_of_nat n.
Definition ord (c : ascii) : Z := Z.of_nat (nat_of_ascii c).

(** Concatenation of the images of the characters of [s]. *)
Fixpoint flat_map (f : ascii -> string) (s : string) : string :=
  match s with
  | "" => ""
  | String c s' => f c ++ flat_map f s'
  end.

Fixpoint forallb (p : ascii -> bool) (s : string) : bool :=
  match s with
  | "" => true
  | String c s' => p c && forallb p s'
  end.

(** Ordinal (code point) comparison [s < t] of two strings. *)
Fixpoint ltb (s t : string) : bool :=
  match s, t with
  | _, "" => false
  | "", String _ _ => true
  | String a s', String b t' =>
      if Ascii.eqb a b then ltb s' t' else (ord a <? ord b)
  end.

End Str.

Definition LF : ascii := Str.chr 10.
Definition CR : ascii := Str.chr 13.
Definition CRLF : string := String CR (String LF "").
Definition DQUOTE : ascii := Str.chr 34.

(** ** calendar.py: text escaping and line folding *)

Definition _MAX_LINE_LENGTH : nat := 75.

(** [_escape_text]: five [str.replace] calls, chained in the source order. *)
Definition _escape_text (value : string) : string :=
  Str.replace ";" "\;"
    (Str.replace "," "\,"
      (Str.replace CR ""
        (Str.replace LF "\n"
          (Str.replace "\" "\\" value)))).

Lemma drop_length n s : String.length (Str.drop n s) = (String.length s - n)%nat.
Proof. revert s; induction n as [|n IH]; intros [|c s]; simpl; auto. Qed.

(** The [while] loop of [_fold_line]; the chunks it appends, in order. *)
Equations fold_loop (remainder : string) : list string
  by wf (String.length remainder) lt :=
  fold_loop remainder
    with lt_dec (_MAX_LINE_LENGTH - 1) (String.length remainder) => {
    | left _ :=
        (" " ++ Str.take (_MAX_LINE_LENGTH - 1) remainder)
          :: fold_loop (Str.drop (_MAX_LINE_LENGTH - 1) remainder);
    | right _ := [" " ++ remainder] }.
Next Obligation.
  change (String.length (Str.drop (_MAX_LINE_LENGTH - 1) remainder)
          < String.length remainder)%nat.
  rewrite drop_length. unfold _MAX_LINE_LENGTH in *. lia.
Qed.

Definition _fold_line (line : string) : list string :=
  if Nat.leb (String.length line) _MAX_LINE_LENGTH then [line]
  else Str.take _MAX_LINE_LENGTH line :: fold_loop (Str.drop _MAX_LINE_LENGTH line).

Definition _format_ics_line (key value : string) : list string :=
  _fold_line (key ++ ":" ++ value).

(** ** Numbers as text *)

(** [str(z)] for an [int]. *)
Definition str_of_Z (z : Z) : string := NilEmpty.string_of_int (Z.to_int z).

Fixpoint zeros (n : nat) : string :=
  match n with O => "" | S n' => String "0" (zeros n') end.

(** ["%0<w>d" % z] for [0 <= z]. *)
Definition zfill (w : nat) (z : Z) : string :=
  let s := str_of_Z z in zeros (w - String.length s) ++ s.

Definition hex_digits : list ascii := list_ascii_of_string "0123456789abcdef".

Definition hex_digit (n : Z) : ascii := nth (Z.to_nat n) hex_digits "0"%char.

(** ["%02x" % b] for a byte [b]. *)
Definition hex2 (b : Z) : string :=
  String (hex_digit (b / 16)) (String (hex_digit (b mod 16)) "").

(** ** datetime.date and datetime.datetime *)

Record date : Type := Date { year : Z; month : Z; day : Z }.

(** Time of day of a naive [datetime] without microseconds. *)
Record time : Type := Time { hour : Z; minute : Z; second : Z }.

Module Dt.

Definition is_leap (y : Z) : bool :=
  (y mod 4 =? 0) && (negb (y mod 100 =? 0) || (y mod 400 =? 0)).

Definition days_in_month (y m : Z) : Z :=
  if m =? 2 then (if is_leap y then 29 else 28)
  else if (m =? 4) || (m =? 6) || (m =? 9) || (m =? 11) then 30
  else 31.

(** The range check of the [date] constructor. *)
Definition valid (d : date) : bool :=
  (1 <=? year d) && (year d <=? 9999) &&
  (1 <=? month d) && (month d <=? 12) &&
  (1 <=? day d) && (day d <=? days_in_month (year d) (month d)).

Definition eqb (a b : date) : bool :=
  (year a =? year b) && (month a =? month b) && (day a =? day b).

(** [a < b] on dates. *)
Definition ltb (a b : date) : bool :=
  (year a <? year b)
  || ((year a =? year b)
      && ((month a <? month b)
          || ((month a =? month b) && (day a <? day b)))).

Definition time_eqb (a b : time) : bool :=
  (hour a =? hour b) && (minute a =? minute b) && (second a =? second b).

Definition time_ltb (a b : time) : bool :=
  (hour a <? hour b)
  || ((hour a =? hour b)
      && ((minute a <? minute b)
          || ((minute a =? minute b) && (second a <? second b)))).

(** [d.isoformat()] *)
Definition isoformat (d : date) : string :=
  zfill 4 (year d) ++ "-" ++ zfill 2 (month d) ++ "-" ++ zfill 2 (day d).

(** [t.isoformat()] for the time of day. *)
Definition time_isoformat (t : time) : string :=
  zfill 2 (hour t) ++ ":" ++ zfill 2 (minute t) ++ ":" ++ zfill 2 (second t).

(** [d.strftime("%Y%m%d")]; the year is written with four digits (the C
    library of some platforms does not pad years below 1000). *)
Definition strftime_Ymd (d : date) : string :=
  zfill 4 (year d) ++ zfill 2 (month d) ++ zfill 2 (day d).

(** [t.strftime("%H%M%S")] *)
Definition strftime_HMS (t : time) : string :=
  zfill 2 (hour t) ++ zfill 2 (minute t) ++ zfill 2 (second t).

(** [d + datetime.timedelta(days=1)] *)
Definition add_one_day (d : date) : result date :=
  if day d <? days_in_month (year d) (month d)
  then Ok (Date (year d) (month d) (day d + 1))
  else if month d <? 12 then Ok (Date (year d) (month d + 1) 1)
  else if year d <? 9999 then Ok (Date (year d + 1) 1 1)
  else Error (Exn OverflowError "date value out of range").

(** The proleptic Gregorian date [n] days after 1970-01-01. *)
Definition civil_from_days (n : Z) : date :=
  let z := n + 719468 in
  let era := z / 146097 in
  let doe := z - era * 146097 in
  let yoe := (doe - doe / 1460 + doe / 36524 - doe / 146096) / 365 in
  let doy := doe - (365 * yoe + yoe / 4 - yoe / 100) in
  let mp := (5 * doy + 2) / 153 in
  let d := doy - (153 * mp + 2) / 5 + 1 in
  let m := if mp <? 10 then mp + 3 else mp - 9 in
  let y := yoe + era * 400 + (if m <=? 2 then 1 else 0) in
  Date y m d.

(** [datetime.utcfromtimestamp(ts).date()] for an [int] timestamp. A
    timestamp whose year is outside 1..9999 raises [ValueError] (CPython
    raises [OverflowError] instead when it is far outside). *)
Definition utcfromtimestamp_date (ts : Z) : result date :=
  let d := civil_from_days (ts / 86400) in
  if (1 <=? year d) && (year d <=? 9999) then Ok d
  else Error (Exn ValueError ("year " ++ str_of_Z (year d) ++ " is out of range")).

Definition is_digit (c : ascii) : bool :=
  (48 <=? Str.ord c) && (Str.ord c <=? 57).

(** The number written by a string of decimal digits; [None] if a
    character is not a digit. *)
Fixpoint digits_from (acc : Z) (s : string) : option Z :=
  match s with
  | "" => Some acc
  | String c s' =>
      if is_digit c then digits_from (10 * acc + (Str.ord c - 48)) s' else None
  end.

Definition parse_digits (s : string) : option Z :=
  match s with "" => None | _ => digits_from 0 s end.

(** [datetime.date.fromisoformat(s)] as in CPython 3.9 and 3.10: exactly
    [YYYY-MM-DD], a date the constructor accepts. [None] stands for the
    [ValueError] it raises otherwise. (From 3.11 on, further ISO 8601
    shapes are accepted.) *)
Definition date_fromisoformat (s : string) : option date :=
  if negb (String.length s =? 10)%nat then None
  else
    match parse_digits (Str.take 4 s),
          parse_digits (Str.take 2 (Str.drop 5 s)),
          parse_digits (Str.take 2 (Str.drop 8 s)) with
    | Some y, Some m, Some d =>
        if String.eqb (Str.take 1 (Str.drop 4 s)) "-"
           && String.eqb (Str.take 1 (Str.drop 7 s)) "-"
           && valid (Date y m d)
        then Some (Date y m d) else None
    | _, _, _ => None
    end.

(** A two-digit field not above [hi]. *)
Definition field2 (hi : Z) (s : string) : bool :=
  match parse_digits s with
  | Some n => (String.length s =? 2)%nat && (n <=? hi)
  | None => false
  end.

(** [HH[:MM[:SS[.fff[fff]]]]] *)
Definition clock_ok (s : string) : bool :=
  let n := String.length s in
  field2 23 (Str.take 2 s)
  && ((n =? 2)%nat
      || (String.eqb (Str.take 1 (Str.drop 2 s)) ":"
          && field2 59 (Str.take 2 (Str.drop 3 s))
          && ((n =? 5)%nat
              || (String.eqb (Str.take 1 (Str.drop 5 s)) ":"
                  && field2 59 (Str.take 2 (Str.drop 6 s))
                  && ((n =? 8)%nat
                      || (String.eqb (Str.take 1 (Str.drop 8 s)) "."
                          && ((n =? 12)%nat || (n =? 15)%nat)
                          && Str.forallb is_digit (Str.drop 9 s))))))).

(** The index of the first sign character of [s], or its length. *)
Fixpoint sign_pos (s : string) : nat :=
  match s with
  | "" => O
  | String c s' =>
      if Ascii.eqb c "+" || Ascii.eqb c "-" then O else S (sign_pos s')
  end.

(** The time part of an ISO string, with an optional UTC offset
    [+HH:MM[:SS[.ffffff]]]. *)
Definition isoformat_time_ok (s : string) : bool :=
  let p := sign_pos s in
  let tz := Str.drop (S p) s in
  let tzlen := String.length tz in
  clock_ok (Str.take p s)
  && ((p =? String.length s)%nat
      || (((tzlen =? 5)%nat || (tzlen =? 8)%nat || (tzlen =? 15)%nat)
          && clock_ok tz)).

(** [datetime.datetime.fromisoformat(s).date()] as in CPython 3.9 and
    3.10: [YYYY-MM-DD], then optionally any one separator character and a
    time. [None] stands for the [ValueError] raised otherwise. *)
Definition datetime_fromisoformat_date (s : string) : option date :=
  match date_fromisoformat (Str.take 10 s) with
  | None => None
  | Some d =>
      if (String.length s <=? 10)%nat then Some d
      else if isoformat_time_ok (Str.drop 11 s) then Some d
      else None
  end.

End Dt.

(** ** Python values *)

(** What [datetime.utcfromtimestamp(x)] raises for a float [x] it cannot
    convert: [x] is not a number, the year is outside 1..9999, or [x] is
    outside the range of the platform's time. *)
Inductive timestamp_error : Type :=
| NotANumber
| YearOutOfRange (y : Z)
| TimeOutOfRange.

Definition timestamp_exn (t : timestamp_error) : exn :=
  match t with
  | NotANumber => Exn ValueError "Invalid value NaN (not a number)"
  | YearOutOfRange y =>
      Exn ValueError ("year " ++ str_of_Z y ++ " is out of range")
  | TimeOutOfRange =>
      Exn OverflowError "timestamp out of range for platform time_t"
  end.

(** A [float]. The program hands a float to three operations of the
    interpreter only: [str(x)] (the text of [repr(x)] as well),
    [bool(x)], and [datetime.utcfromtimestamp(x).date()]. A float is
    represented by what these give for it: its text, whether it is not zero,
    and the UTC date of it as a timestamp, or what the conversion raises. *)
Record pyfloat : Type := {
  float_str : string;
  float_nonzero : bool;
  float_utc_date : date + timestamp_error
}.

Inductive value : Type :=
| VNone
| VBool (b : bool)
| VInt (z : Z)
| VFloat (x : pyfloat)
| VStr (s : string)
| VList (elems : list value)
| VDict (items : list (string * value))
| VDate (d : date)
| VDateTime (d : date) (t : time).

(** A mapping with [str] keys, in insertion order. *)
Definition dict : Type := list (string * value).

(** [bool(v)] *)
Definition truthy (v : value) : bool :=
  match v with
  | VNone => false
  | VBool b => b
  | VInt z => negb (z =? 0)
  | VFloat x => float_nonzero x
  | VStr s => negb (String.eqb s "")
  | VList l => match l with [] => false | _ => true end
  | VDict l => match l with [] => false | _ => true end
  | VDate _ | VDateTime _ _ => true
  end.

(** [a or b] *)
Definition py_or (a b : value) : value := if truthy a then a else b.
Infix "or'" := py_or (at level 50, left associativity).

(** [v is None] *)
Definition is_none (v : value) : bool :=
  match v with VNone => true | _ => false end.

(** [key in d] *)
Fixpoint dict_contains (key : string) (d : dict) : bool :=
  match d with
  | [] => false
  | (k, _) :: d' => String.eqb k key || dict_contains key d'
  end.

(** [d.get(key)] *)
Fixpoint dict_get (key : string) (d : dict) : value :=
  match d with
  | [] => VNone
  | (k, v) :: d' => if String.eqb k key then v else dict_get key d'
  end.

(** [type(v).__name__] *)
Definition type_name (v : value) : string :=
  match v with
  | VNone => "NoneType"
  | VBool _ => "bool"
  | VInt _ => "int"
  | VFloat _ => "float"
  | VStr _ => "str"
  | VList _ => "list"
  | VDict _ => "dict"
  | VDate _ => "date"
  | VDateTime _ _ => "datetime"
  end.

(** The name of the type as exception messages of the interpreter show it. *)
Definition qualified_type_name (v : value) : string :=
  match v with
  | VDate _ => "datetime.date"
  | VDateTime _ _ => "datetime.datetime"
  | _ => type_name v
  end.

(** [repr(s)] of a [str]: printable characters as they are, the others
    escaped; double quotes only when [s] has a single quote and no double
    one. *)
Definition repr_char (quote c : ascii) : string :=
  let n := Str.ord c in
  if Ascii.eqb c "\" then "\\"
  else if Ascii.eqb c quote then String "\" (String c "")
  else if n =? 9 then "\t"
  else if n =? 10 then "\n"
  else if n =? 13 then "\r"
  else if (n <? 32) || ((127 <=? n) && (n <=? 160)) || (n =? 173)
       then "\x" ++ hex2 n
  else String c "".

Definition repr_str (s : string) : string :=
  let quote : ascii :=
    if Str.contains "'" s && negb (Str.contains DQUOTE s) then DQUOTE
    else "'"%char in
  String quote (Str.flat_map (repr_char quote) s) ++ String quote "".

(** [repr(v)] *)
Fixpoint py_repr (v : value) : string :=
  match v with
  | VNone => "None"
  | VBool b => if b then "True" else "False"
  | VInt z => str_of_Z z
  | VFloat x => float_str x
  | VStr s => repr_str s
  | VList l => "[" ++ Str.join ", " (map py_repr l) ++ "]"
  | VDict items =>
      "{" ++ Str.join ", "
               (map (fun kv => let '(k, x) := kv in
                               repr_str k ++ ": " ++ py_repr x) items) ++ "}"
  | VDate d =>
      "datetime.date(" ++ str_of_Z (year d) ++ ", " ++ str_of_Z (month d)
        ++ ", " ++ str_of_Z (day d) ++ ")"
  | VDateTime d t =>
      "datetime.datetime(" ++ str_of_Z (year d) ++ ", " ++ str_of_Z (month d)
        ++ ", " ++ str_of_Z (day d) ++ ", " ++ str_of_Z (hour t)
        ++ ", " ++ str_of_Z (minute t)
        ++ (if second t =? 0 then "" else ", " ++ str_of_Z (second t)) ++ ")"
  end.

(** [str(v)], also what an f-string writes for [{v}]. *)
Definition py_str (v : value) : string :=
  match v with
  | VStr s => s
  | VDate d => Dt.isoformat d
  | VDateTime d t => Dt.isoformat d ++ " " ++ Dt.time_isoformat t
  | _ => py_repr v
  end.

(** ** json.dumps *)

Definition json_char (c : ascii) : string :=
  let n := Str.ord c in
  if Ascii.eqb c "\" then "\\"
  else if Ascii.eqb c DQUOTE then String "\" (String DQUOTE "")
  else if n =? 8 then "\b"
  else if n =? 12 then "\f"
  else if n =? 10 then "\n"
  else if n =? 13 then "\r"
  else if n =? 9 then "\t"
  else if n <? 32 then "\u00" ++ hex2 n
  else String c "".

Definition json_str (s : string) : string :=
  String DQUOTE (Str.flat_map json_char s) ++ String DQUOTE "".

(** [json.dumps(v, ensure_ascii=False)] with the default encoder. A finite
    float is written with the text of its [repr]. *)
Fixpoint json_dumps (v : value) : result string :=
  match v with
  | VNone => Ok "null"
  | VBool b => Ok (if b then "true" else "false")
  | VInt z => Ok (str_of_Z z)
  | VFloat x => Ok (float_str x)
  | VStr s => Ok (json_str s)
  | VList l =>
      parts <- mapM json_dumps l ;;
      Ok ("[" ++ Str.join ", " parts ++ "]")
  | VDict items =>
      parts <- mapM (fun kv => let '(k, x) := kv in
                               t <- json_dumps x ;; Ok (json_str k ++ ": " ++ t))
                    items ;;
      Ok ("{" ++ Str.join ", " parts ++ "}")
  | VDate _ | VDateTime _ _ =>
      Error (Exn TypeError
               ("Object of type " ++ type_name v ++ " is not JSON serializable"))
  end.

(** ** hashlib.sha1 and uuid.uuid5 *)

Module Sha1.

Definition mask32 (x : Z) : Z := Z.land x 4294967295.

(** Rotation to the left of a 32-bit word. *)
Definition rotl (n x : Z) : Z :=
  mask32 (Z.lor (Z.shiftl x n) (Z.shiftr x (32 - n))).

Definition add32 (x y : Z) : Z := mask32 (x + y).

Definition lnot32 (x : Z) : Z := Z.lxor x 4294967295.

(** The message followed by the bit 1, zeros, and its length in bits on 64
    bits, to a multiple of 64 bytes. *)
Definition pad (msg : list Z) : list Z :=
  let len := Z.of_nat (List.length msg) in
  let k := (55 - len) mod 64 in
  let bits := 8 * len in
  msg ++ [128] ++ repeat 0 (Z.to_nat k)
      ++ map (fun i => Z.land (Z.shiftr bits (8 * (7 - Z.of_nat i))) 255) (seq 0 8).

(** Big-endian 32-bit words of a list of bytes. *)
Fixpoint words (bytes : list Z) : list Z :=
  match bytes with
  | a :: b :: c :: d :: rest =>
      (Z.shiftl a 24 + Z.shiftl b 16 + Z.shiftl c 8 + d) :: words rest
  | _ => []
  end.

(** The message schedule, most recent word first. *)
Fixpoint schedule (n : nat) (w : list Z) : list Z :=
  match n with
  | O => w
  | S n' =>
      let x := Z.lxor (Z.lxor (nth 2 w 0) (nth 7 w 0))
                      (Z.lxor (nth 13 w 0) (nth 15 w 0)) in
      schedule n' (rotl 1 x :: w)
  end.

Record state : Type := State { ha : Z; hb : Z; hc : Z; hd : Z; he : Z }.

Definition round (t : nat) (s : state) (w : Z) : state :=
  let '(State a b c d e) := s in
  let '(f, k) :=
    if (t <? 20)%nat then (Z.lor (Z.land b c) (Z.land (lnot32 b) d), 1518500249)
    else if (t <? 40)%nat then (Z.lxor (Z.lxor b c) d, 1859775393)
    else if (t <? 60)%nat
         then (Z.lor (Z.lor (Z.land b c) (Z.land b d)) (Z.land c d), 2400959708)
    else (Z.lxor (Z.lxor b c) d, 3395469782) in
  let tmp := add32 (add32 (add32 (add32 (rotl 5 a) f) e) k) w in
  State tmp a (rotl 30 b) c d.

Fixpoint rounds (t : nat) (ws : list Z) (s : state) : state :=
  match ws with
  | [] => s
  | w :: ws' => rounds (S t) ws' (round t s w)
  end.

Definition compress (s : state) (block : list Z) : state :=
  let ws := rev (schedule 64 (rev (words block))) in
  let '(State a b c d e) := rounds 0 ws s in
  State (add32 (ha s) a) (add32 (hb s) b) (add32 (hc s) c)
        (add32 (hd s) d) (add32 (he s) e).

Fixpoint blocks (n : nat) (bytes : list Z) (s : state) : state :=
  match n with
  | O => s
  | S n' => blocks n' (skipn 64 bytes) (compress s (firstn 64 bytes))
  end.

Definition word_bytes (w : Z) : list Z :=
  [Z.land (Z.shiftr w 24) 255; Z.land (Z.shiftr w 16) 255;
   Z.land (Z.shiftr w 8) 255; Z.land w 255].

(** [hashlib.sha1(msg).digest()], 20 bytes. *)
Definition digest (msg : list Z) : list Z :=
  let p := pad msg in
  let '(State a b c d e) :=
    blocks (List.length p / 64)%nat p
           (State 1732584193 4023233417 2562383102 271733878 3285377520) in
  word_bytes a ++ word_bytes b ++ word_bytes c ++ word_bytes d ++ word_bytes e.

End Sha1.

Module Uuid.

(** [s.encode("utf-8")] for characters below 256. *)
Fixpoint utf8 (s : string) : list Z :=
  match s with
  | "" => []
  | String c s' =>
      let n := Str.ord c in
      if n <? 128 then n :: utf8 s'
      else (192 + n / 64) :: (128 + n mod 64) :: utf8 s'
  end.

(** [uuid.NAMESPACE_URL.bytes]: 6ba7b811-9dad-11d1-80b4-00c04fd430c8. *)
Definition NAMESPACE_URL : list Z :=
  [107; 167; 184; 17; 157; 173; 17; 209; 128; 180; 0; 192; 79; 212; 48; 200].

(** The first 16 bytes, with the version set to [version] and the variant
    to RFC 4122. *)
Definition set_version (version : Z) (bytes : list Z) : list Z :=
  map (fun ib : nat * Z =>
         let '(i, b) := ib in
         if (i =? 6)%nat then Z.lor (Z.land b 15) (Z.shiftl version 4)
         else if (i =? 8)%nat then Z.lor (Z.land b 63) 128
         else b)
      (combine (seq 0 16) (firstn 16 bytes)).

Definition hex (bytes : list Z) : string :=
  List.fold_right (fun b acc => hex2 b ++ acc) "" bytes.

(** [str(u)]: the 8-4-4-4-12 form of the 16 bytes. *)
Definition to_str (bytes : list Z) : string :=
  hex (firstn 4 bytes) ++ "-" ++ hex (firstn 2 (skipn 4 bytes)) ++ "-"
    ++ hex (firstn 2 (skipn 6 bytes)) ++ "-" ++ hex (firstn 2 (skipn 8 bytes))
    ++ "-" ++ hex (skipn 10 bytes).

(** [str(uuid.uuid5(uuid.NAMESPACE_URL, name))] *)
Definition uuid5_url (name : string) : string :=
  to_str (set_version 5 (Sha1.digest (NAMESPACE_URL ++ utf8 name))).

End Uuid.

(** ** calendar.py: configuration, slugs, dates and stringification *)

(** [@dataclass class CalendarConfig] with its four fields. *)
Record CalendarConfig : Type := {
  name : string;
  prodid : string;
  domain : string;
  timezone : string
}.

(** [CalendarConfig()] *)
Definition default_config : CalendarConfig := {|
  name := "General Roman Calendar";
  prodid := "-//Catholic Calendar//General Roman Calendar//EN";
  domain := "catholic.calendar";
  timezone := "UTC"
|}.

(** The result of [_parse_date]: a [date] object or, for a [datetime]
    argument, that [datetime] object. *)
Inductive date_value : Type :=
| DDate (d : date)
| DDateTime (d : date) (t : time).

(** The mapping [_normalise_event] returns. *)
Record canonical : Type := {
  uid : string;
  summary : value;
  description : string;
  categories : list value;
  date_of : date_value
}.

Module Slug.

(** [c.lower()] for a character below 256. *)
Definition lower_char (c : ascii) : ascii :=
  let n := Str.ord c in
  if ((65 <=? n) && (n <=? 90))
     || ((192 <=? n) && (n <=? 222) && negb (n =? 215))
  then Str.chr (Z.to_nat (n + 32)) else c.

Fixpoint lower (s : string) : string :=
  match s with
  | "" => ""
  | String c s' => String (lower_char c) (lower s')
  end.

(** The class [[a-z0-9]]. *)
Definition is_slug_char (c : ascii) : bool :=
  let n := Str.ord c in
  ((97 <=? n) && (n <=? 122)) || ((48 <=? n) && (n <=? 57)).

(** [_SLUG_RE.sub("-", s)]: every maximal run of characters outside
    [[a-z0-9]] becomes one hyphen. [in_run] tells that the previous
    character belonged to such a run. *)
Fixpoint sub_runs (in_run : bool) (s : string) : string :=
  match s with
  | "" => ""
  | String c s' =>
      if is_slug_char c then String c (sub_runs false s')
      else if in_run then sub_runs true s'
      else String "-" (sub_runs true s')
  end.

Fixpoint lstrip (c : ascii) (s : string) : string :=
  match s with
  | "" => ""
  | String a s' => if Ascii.eqb a c then lstrip c s' else s
  end.

Fixpoint rstrip (c : ascii) (s : string) : string :=
  match s with
  | "" => ""
  | String a s' =>
      let r := rstrip c s' in
      if Ascii.eqb a c && String.eqb r "" then "" else String a r
  end.

(** [s.strip(c)] for one character [c]. *)
Definition strip (c : ascii) (s : string) : string := rstrip c (lstrip c s).

End Slug.

(** Whether [v] is a [date] or [datetime] object. *)
Definition is_date_object (v : value) : bool :=
  match v with
  | VDate _ | VDateTime _ _ => true
  | _ => false
  end.

(** The call [value.<attr>(...)] of a [str] method with [str] arguments, up
    to the point where the method of a [str] runs. Among the other values
    only a [date] and a [datetime] have an attribute of one of the names the
    program uses, [replace], and that method refuses a [str] argument. *)
Definition str_method (attr : string) (v : value) : result string :=
  match v with
  | VStr s => Ok s
  | _ =>
      if is_date_object v && String.eqb attr "replace" then
        Error (Exn TypeError "'str' object cannot be interpreted as an integer")
      else
        Error (Exn AttributeError
                 ("'" ++ qualified_type_name v ++ "' object has no attribute '"
                      ++ attr ++ "'"))
  end.

Definition _slugify (value : value) : result string :=
  if negb (truthy value) then Ok "event"
  else
    s <- str_method "lower" value ;;
    let value := Slug.lower s in
    let value := Slug.sub_runs false value in
    let value := Slug.strip "-" value in
    Ok (if String.eqb value "" then "event" else value).

(** [isinstance(value, dt.date)]: [datetime] is a subclass of [date], so a
    [datetime] object passes the test too; the object itself is returned. *)
Definition as_date (v : value) : option date_value :=
  match v with
  | VDate d => Some (DDate d)
  | VDateTime d t => Some (DDateTime d t)
  | _ => None
  end.

(** [isinstance(value, dt.datetime)], giving [value.date()]. *)
Definition as_datetime_date (v : value) : option date :=
  match v with
  | VDateTime d _ => Some d
  | _ => None
  end.

(** A number: an [int] (a [bool] is one) or a [float]. *)
Inductive number : Type :=
| NInt (z : Z)
| NFloat (x : pyfloat).

(** [isinstance(value, (int, float))]; [bool] is a subclass of [int]. *)
Definition as_number (v : value) : option number :=
  match v with
  | VInt z => Some (NInt z)
  | VBool b => Some (NInt (if b then 1 else 0))
  | VFloat x => Some (NFloat x)
  | _ => None
  end.

(** [dt.datetime.utcfromtimestamp(ts).date()] *)
Definition utcfromtimestamp_date (ts : number) : result date :=
  match ts with
  | NInt z => Dt.utcfromtimestamp_date z
  | NFloat x =>
      match float_utc_date x with
      | inl d => Ok d
      | inr t => Error (timestamp_exn t)
      end
  end.

Definition _parse_date (value : value) : result date_value :=
  match as_date value with
  | Some dv => Ok dv
  | None =>
  match as_datetime_date value with
  | Some d => Ok (DDate d)
  | None =>
  match as_number value with
  | Some ts => d <- utcfromtimestamp_date ts ;; Ok (DDate d)
  | None =>
  match value with
  | VStr s =>
      match Dt.date_fromisoformat (Str.take 10 s) with
      | Some d => Ok (DDate d)
      | None =>
          match Dt.datetime_fromisoformat_date s with
          | Some d => Ok (DDate d)
          | None =>
              Error (Exn ValueError ("Cannot parse date from " ++ py_repr value))
          end
      end
  | _ => Error (Exn TypeError ("Unsupported date value " ++ py_repr value))
  end end end end.

(** A comprehension with a condition: [[f(x) for x in l if p(x)]]. *)
Section MapMIf.
Context {A B : Type} (p : A -> bool) (f : A -> result B).

Fixpoint mapM_if (l : list A) : result (list B) :=
  match l with
  | [] => Ok []
  | x :: xs =>
      if p x then y <- f x ;; ys <- mapM_if xs ;; Ok (y :: ys)
      else mapM_if xs
  end.
End MapMIf.

Fixpoint _stringify (value : value) : result string :=
  match value with
  | VNone => Ok ""
  | VStr s => Ok s
  | VBool b => Ok (if b then "Yes" else "No")
  | VInt z => Ok (str_of_Z z)
  | VFloat _ => Ok (py_str value)
  | VList elems =>
      parts <- mapM_if (fun elem => negb (is_none elem)) _stringify elems ;;
      Ok (Str.join ", " parts)
  | VDict items =>
      parts <- mapM_if (fun kv : string * _ => negb (is_none (snd kv)))
                       (fun kv => let '(key, val) := kv in
                                  t <- _stringify val ;; Ok (key ++ ": " ++ t))
                       items ;;
      Ok (Str.join "; " parts)
  | VDate _ | VDateTime _ _ => json_dumps value
  end.

(** ** calendar.py: [_normalise_event] *)

(** [list(v)]: the elements of a list, the keys of a dict, the characters of
    a str; other objects are not iterable. *)
Definition py_list (v : value) : result (list value) :=
  match v with
  | VList l => Ok l
  | VDict items => Ok (map (fun kv : string * value => VStr (fst kv)) items)
  | VStr s => Ok (map (fun c => VStr (String c "")) (list_ascii_of_string s))
  | _ => Error (Exn TypeError
                  ("'" ++ qualified_type_name v ++ "' object is not iterable"))
  end.

(** [dv.isoformat()] *)
Definition dv_isoformat (dv : date_value) : string :=
  match dv with
  | DDate d => Dt.isoformat d
  | DDateTime d t => Dt.isoformat d ++ "T" ++ Dt.time_isoformat t
  end.

(** The loop over [description_pairs]. *)
Fixpoint description_loop (pairs : list (string * value)) : result (list string) :=
  match pairs with
  | [] => Ok []
  | (label, value) :: rest =>
      if is_none value then description_loop rest
      else
        stringified <- _stringify value ;;
        lines <- description_loop rest ;;
        Ok (if String.eqb stringified "" then lines
            else (label ++ ": " ++ stringified) :: lines)
  end.

Definition _normalise_event (event : dict) (config : CalendarConfig)
  : result canonical :=
  let get := fun key => dict_get key event in
  date_value <-
    (if dict_contains "date" event then _parse_date (get "date")
     else if dict_contains "start" event then _parse_date (get "start")
     else Error (Exn KeyError "romcal events must include a 'date' entry")) ;;
  let summary :=
    get "name" or' get "title" or' get "celebration" or' get "id"
      or' VStr "Unnamed Celebration" in
  let category :=
    get "rankName" or' get "rank" or' get "type" or' get "classification"
      or' VStr "Celebration" in
  let uid := get "uid" or' get "identifier" in
  uid <-
    (if truthy uid then
       let uid := py_str uid in
       Ok (if negb (Str.contains "@" uid) then uid ++ "@" ++ domain config
           else uid)
     else
       slug <- (if truthy (get "slug") then Ok (py_str (get "slug"))
                else _slugify summary) ;;
       let uid_seed := dv_isoformat date_value ++ "-" ++ slug in
       Ok (Uuid.uuid5_url uid_seed ++ "@" ++ domain config)) ;;
  let description_pairs :=
    [ ("Rank", get "rankName" or' get "rank");
      ("Liturgical color", get "liturgicalColor" or' get "liturgicalColors");
      ("Season", get "season" or' get "liturgicalSeason");
      ("Type", get "type" or' get "liturgicalType");
      ("Holy day of obligation", get "isHolyDayOfObligation");
      ("Optional memorial", get "isOptional");
      ("Week", get "week" or' get "liturgicalWeek");
      ("Cycle", get "cycle" or' get "liturgicalCycle") ] in
  let notes := get "note" or' get "notes" in
  let description_pairs :=
    if truthy notes then (description_pairs ++ [("Notes", notes)])%list
    else description_pairs in
  let commemorations := get "commemorations" or' get "secondaryCelebrations" in
  lines1 <-
    (if truthy commemorations then
       s <- _stringify commemorations ;; Ok ["Commemorations: " ++ s]
     else Ok []) ;;
  let metadata := get "metadata" or' get "meta" in
  lines2 <-
    (if truthy metadata then s <- _stringify metadata ;; Ok [s] else Ok []) ;;
  lines3 <- description_loop description_pairs ;;
  let description := Str.join (String LF "") (lines1 ++ lines2 ++ lines3)%list in
  categories <-
    (match category with
     | VStr _ => Ok [category]
     | _ => py_list category
     end) ;;
  Ok {| uid := uid;
        summary := summary;
        description := description;
        categories := categories;
        date_of := date_value |}.

(** ** calendar.py: [build_icalendar] *)

(** [a == b] and [a < b] on the objects [_parse_date] returns. A [date] and
    a [datetime] are never equal and cannot be ordered. *)
Definition dv_eqb (a b : date_value) : bool :=
  match a, b with
  | DDate x, DDate y => Dt.eqb x y
  | DDateTime x s, DDateTime y t => Dt.eqb x y && Dt.time_eqb s t
  | _, _ => false
  end.

Definition dv_lt (a b : date_value) : result bool :=
  match a, b with
  | DDate x, DDate y => Ok (Dt.ltb x y)
  | DDateTime x s, DDateTime y t =>
      Ok (Dt.ltb x y || (Dt.eqb x y && Dt.time_ltb s t))
  | DDateTime _ _, DDate _ | DDate _, DDateTime _ _ =>
      Error (Exn TypeError "can't compare datetime.datetime to datetime.date")
  end.

(** [a < b] on summaries: strings by code points, integers by value. Other
    pairs raise the [TypeError] of an unordered comparison; Python also
    orders two lists and a float with a number, but a summary that is not a
    [str] ends [build_icalendar] with an exception in every case, in
    [_escape_text] at the latest. *)
Definition summary_lt (a b : value) : result bool :=
  match a, b with
  | VStr s, VStr t => Ok (Str.ltb s t)
  | _, _ =>
      match as_number a, as_number b with
      | Some (NInt x), Some (NInt y) => Ok (x <? y)
      | _, _ =>
          Error (Exn TypeError
                   ("'<' not supported between instances of '"
                      ++ qualified_type_name a ++ "' and '"
                      ++ qualified_type_name b ++ "'"))
      end
  end.

(** The comparison [(a["date"], a["summary"]) < (b["date"], b["summary"])]
    of two sort keys: the first components decide unless they are equal. *)
Definition key_lt (a b : canonical) : result bool :=
  if dv_eqb (date_of a) (date_of b) then summary_lt (summary a) (summary b)
  else dv_lt (date_of a) (date_of b).

(** [list.sort(key=...)]: a stable sort that uses only [<] on the keys and
    raises what a comparison raises. It is written as an insertion, which
    gives the order every stable sort gives; which pairs are compared (and so
    which comparison raises first) is that of the insertion. *)
Fixpoint sort_insert (x : canonical) (sorted : list canonical)
  : result (list canonical) :=
  match sorted with
  | [] => Ok [x]
  | y :: rest =>
      lt <- key_lt y x ;;
      if lt then r <- sort_insert x rest ;; Ok (y :: r)
      else Ok (x :: sorted)
  end.

Fixpoint list_sort (l : list canonical) : result (list canonical) :=
  match l with
  | [] => Ok []
  | x :: rest => sorted <- list_sort rest ;; sort_insert x sorted
  end.

(** [dv.strftime("%Y%m%d")] *)
Definition dv_strftime_Ymd (dv : date_value) : string :=
  match dv with
  | DDate d | DDateTime d _ => Dt.strftime_Ymd d
  end.

(** [dv + dt.timedelta(days=1)] *)
Definition dv_add_one_day (dv : date_value) : result date_value :=
  match dv with
  | DDate d => d' <- Dt.add_one_day d ;; Ok (DDate d')
  | DDateTime d t => d' <- Dt.add_one_day d ;; Ok (DDateTime d' t)
  end.

(** The reading of the clock, [dt.datetime.now(dt.timezone.utc)]. *)
Definition clock : Type := (date * time)%type.

(** [now.strftime("%Y%m%dT%H%M%SZ")] *)
Definition strftime_stamp (now : clock) : string :=
  Dt.strftime_Ymd (fst now) ++ "T" ++ Dt.strftime_HMS (snd now) ++ "Z".

(** The six lines [lines] starts with. *)
Definition header_lines (cfg : CalendarConfig) : list string :=
  [ "BEGIN:VCALENDAR";
    "PRODID:" ++ prodid cfg;
    "VERSION:2.0";
    "CALSCALE:GREGORIAN";
    "X-WR-CALNAME:" ++ _escape_text (name cfg);
    "X-WR-TIMEZONE:" ++ _escape_text (timezone cfg) ].

(** The body of the loop over the sorted events: the lines it appends. *)
Definition event_lines (now : string) (normalised : canonical)
  : result (list string) :=
  let start := dv_strftime_Ymd (date_of normalised) in
  next <- dv_add_one_day (date_of normalised) ;;
  let end_ := dv_strftime_Ymd next in
  text <- str_method "replace" (summary normalised) ;;
  Ok (["BEGIN:VEVENT"]
        ++ _format_ics_line "UID" (uid normalised)
        ++ _format_ics_line "DTSTAMP" now
        ++ _format_ics_line "DTSTART;VALUE=DATE" start
        ++ _format_ics_line "DTEND;VALUE=DATE" end_
        ++ _format_ics_line "SUMMARY" (_escape_text text)
        ++ (if negb (String.eqb (description normalised) "")
            then _format_ics_line "DESCRIPTION"
                                  (_escape_text (description normalised))
            else [])
        ++ flat_map (fun category =>
                       _format_ics_line "CATEGORIES"
                                        (_escape_text (py_str category)))
                    (categories normalised)
        ++ ["END:VEVENT"])%list.

Definition build_icalendar (now : clock) (events : list dict)
           (config : option CalendarConfig) : result string :=
  let cfg := match config with Some c => c | None => default_config end in
  normalised_events <- mapM (fun event => _normalise_event event cfg) events ;;
  normalised_events <- list_sort normalised_events ;;
  let now := strftime_stamp now in
  let lines := header_lines cfg in
  blocks <- mapM (event_lines now) normalised_events ;;
  let lines := (lines ++ List.concat blocks ++ ["END:VCALENDAR"])%list in
  Ok (Str.join CRLF lines ++ CRLF).

(** ** cli.py: building the configuration *)

Module Cli.

(** Characters [str.strip()] removes, below 256. *)
Definition is_space (c : ascii) : bool :=
  let n := Str.ord c in
  ((9 <=? n) && (n <=? 13)) || ((28 <=? n) && (n <=? 32))
  || (n =? 133) || (n =? 160).

Fixpoint lstrip (s : string) : string :=
  match s with
  | "" => ""
  | String a s' => if is_space a then lstrip s' else s
  end.

Fixpoint rstrip (s : string) : string :=
  match s with
  | "" => ""
  | String a s' =>
      let r := rstrip s' in
      if is_space a && String.eqb r "" then "" else String a r
  end.

Definition _normalise_optional (value : option string) : option string :=
  match value with
  | None => None
  | Some value =>
      let stripped := rstrip (lstrip value) in
      if String.eqb stripped "" then None
      else if String.eqb (Slug.lower stripped) "none" then None
      else Some stripped
  end.

(** A [str | None] argument as a Python object. *)
Definition optional (o : option string) : value :=
  match o with Some s => VStr s | None => VNone end.

(** A call of [CalendarConfig] with keyword arguments (the generated
    [__init__]): a
    keyword that is not a field raises [TypeError]; a field that is not
    given keeps its default. The fields are annotated [str]. *)
Definition CalendarConfig_fields : list string :=
  ["name"; "prodid"; "domain"; "timezone"].

Definition field (key : string) (kwargs : dict) (default : string) : string :=
  match dict_get key kwargs with
  | VStr s => s
  | _ => default
  end.

Definition CalendarConfig_init (kwargs : dict) : result CalendarConfig :=
  match find (fun kw : string * value =>
                negb (existsb (String.eqb (fst kw)) CalendarConfig_fields))
             kwargs with
  | Some (key, _) =>
      Error (Exn TypeError
               ("__init__() got an unexpected keyword argument '" ++ key ++ "'"))
  | None =>
      Ok {| name := field "name" kwargs (name default_config);
            prodid := field "prodid" kwargs (prodid default_config);
            domain := field "domain" kwargs (domain default_config);
            timezone := field "timezone" kwargs (timezone default_config) |}
  end.

(** The keyword arguments of [generate_calendar] that reach the feed. *)
Record options : Type := {
  opt_name : string;
  opt_prodid : string;
  opt_domain : string;
  opt_timezone : string;
  opt_method : option string;
  opt_refresh_interval : option string;
  opt_published_ttl : option string
}.

(** The defaults of the signature (and of the command line). *)
Definition default_options : options := {|
  opt_name := "General Roman Calendar";
  opt_prodid := "-//Catholic Calendar//General Roman Calendar//EN";
  opt_domain := "catholic.calendar";
  opt_timezone := "UTC";
  opt_method := Some "PUBLISH";
  opt_refresh_interval := Some "P1D";
  opt_published_ttl := Some "P1D"
|}.

(** [generate_calendar] from the point where the events of all years have
    been fetched: the text it would write to the output file. *)
Definition generate_calendar (now : clock) (events : list dict) (o : options)
  : result string :=
  calendar_config <-
    CalendarConfig_init
      [ ("name", VStr (opt_name o));
        ("prodid", VStr (opt_prodid o));
        ("domain", VStr (opt_domain o));
        ("timezone", VStr (opt_timezone o));
        ("method", optional (_normalise_optional (opt_method o)));
        ("refresh_interval",
          optional (_normalise_optional (opt_refresh_interval o)));
        ("published_ttl",
          optional (_normalise_optional (opt_published_ttl o))) ] ;;
  build_icalendar now events (Some calendar_config).

End Cli.

(** ** The properties as the specification words them *)

Module Spec.

(** Every line followed by the terminator CR LF. *)
Definition crlf_terminated (lines : list string) : string :=
  List.fold_right (fun line rest => line ++ CRLF ++ rest) "" lines.

(** The content of a folded line: the first fragment, then the others
    without their leading space. *)
Definition unfold_lines (fragments : list string) : string :=
  match fragments with
  | [] => ""
  | first :: rest => first ++ String.concat "" (map (Str.drop 1) rest)
  end.

(** The escape of one character: backslash doubled, newline as the two
    characters backslash and n, carriage return dropped, comma and semicolon
    preceded by a backslash. *)
Definition escape_char (c : ascii) : string :=
  if Ascii.eqb c "\" then "\\"
  else if Ascii.eqb c LF then "\n"
  else if Ascii.eqb c CR then ""
  else if Ascii.eqb c "," then "\,"
  else if Ascii.eqb c ";" then "\;"
  else String c "".

(** One of the five characters the escaping treats. *)
Definition is_special (c : ascii) : bool :=
  Ascii.eqb c "\" || Ascii.eqb c LF || Ascii.eqb c CR
  || Ascii.eqb c "," || Ascii.eqb c ";".

(** The first value of [candidates] that is not null, else [default]. *)
Fixpoint first_non_null (candidates : list value) (default : value) : value :=
  match candidates with
  | [] => default
  | v :: rest => if is_none v then first_non_null rest default else v
  end.

(** The first value of [candidates] that is true in a condition (not null,
    not false, not zero, not empty), else [default]. *)
Fixpoint first_truthy (candidates : list value) (default : value) : value :=
  match candidates with
  | [] => default
  | v :: rest => if truthy v then v else first_truthy rest default
  end.

(** The summary as the claim words it. *)
Definition summary (event : dict) : value :=
  first_non_null
    [dict_get "name" event; dict_get "title" event;
     dict_get "celebration" event; dict_get "id" event]
    (VStr "Unnamed Celebration").

(** The stringifier as the claim words it: every entry of a mapping gives
    a pair. *)
Fixpoint stringify (v : value) : result string :=
  match v with
  | VNone => Ok ""
  | VBool b => Ok (if b then "Yes" else "No")
  | VInt z => Ok (str_of_Z z)
  | VFloat x => Ok (float_str x)
  | VStr s => Ok s
  | VList elems =>
      parts <- mapM_if (fun elem => negb (is_none elem)) stringify elems ;;
      Ok (Str.join ", " parts)
  | VDict items =>
      parts <- mapM (fun kv => let '(key, val) := kv in
                               t <- stringify val ;; Ok (key ++ ": " ++ t))
                    items ;;
      Ok (Str.join "; " parts)
  | VDate _ | VDateTime _ _ => json_dumps v
  end.

(** The date entry of a record: the value under [date], else the one
    under [start]. *)
Definition date_entry (event : dict) : option value :=
  if dict_contains "date" event then Some (dict_get "date" event)
  else if dict_contains "start" event then Some (dict_get "start" event)
  else None.







(** The calendar day of the object [_parse_date] returns. *)
Definition calendar_date (dv : date_value) : date :=
  match dv with
  | DDate d | DDateTime d _ => d
  end.

End Spec.

(** ** The steps of [_normalise_event], named

    [_normalise_event] computes the date, the summary and the identifier in
    turn; the statements below speak of these steps by name. *)

(** The date object of a record. *)
Definition event_date (event : dict) : result date_value :=
  match Spec.date_entry event with
  | Some v => _parse_date v
  | None => Error (Exn KeyError "romcal events must include a 'date' entry")
  end.

(** The summary of a record. *)
Definition event_summary (event : dict) : value :=
  dict_get "name" event or' dict_get "title" event
    or' dict_get "celebration" event or' dict_get "id" event
    or' VStr "Unnamed Celebration".

(** The explicit identifier of a record, if it is true in a condition. *)
Definition event_explicit_uid (event : dict) : value :=
  dict_get "uid" event or' dict_get "identifier" event.

(** The slug of a record: the explicit one, else that of the summary. *)
Definition event_slug (event : dict) : result string :=
  if truthy (dict_get "slug" event) then Ok (py_str (dict_get "slug" event))
  else _slugify (event_summary event).

(** The seed of the derived identifier. *)
Definition uid_seed (dv : date_value) (slug : string) : string :=
  dv_isoformat dv ++ "-" ++ slug.

(** The identifier of a record whose date object is [dv]. *)
Definition event_uid (event : dict) (config : CalendarConfig) (dv : date_value)
  : result string :=
  let explicit := event_explicit_uid event in
  if truthy explicit then
    Ok (if negb (Str.contains "@" (py_str explicit))
        then py_str explicit ++ "@" ++ domain config
        else py_str explicit)
  else
    slug <- event_slug event ;;
    Ok (Uuid.uuid5_url (uid_seed dv slug) ++ "@" ++ domain config).

(** ** Exceptions by their origin *)


(** ** Sort keys as ordered tuples *)

(** The sort key of a normalised record whose summary is a string: the
    calendar day and time of day of its date object (midnight for a date)
    and the summary. *)
Definition sort_rank (c : canonical) : (date * time) * string :=
  ((Spec.calendar_date (date_of c),
    match date_of c with DDate _ => Time 0 0 0 | DDateTime _ t => t end),
   match summary c with VStr s => s | _ => "" end).

(** The lexicographic order of these tuples. *)
Definition moment_eqb (x y : date * time) : bool :=
  Dt.eqb (fst x) (fst y) && Dt.time_eqb (snd x) (snd y).

Definition moment_ltb (x y : date * time) : bool :=
  Dt.ltb (fst x) (fst y)
  || (Dt.eqb (fst x) (fst y) && Dt.time_ltb (snd x) (snd y)).

Definition rank_ltb (x y : (date * time) * string) : bool :=
  if moment_eqb (fst x) (fst y) then Str.ltb (snd x) (snd y)
  else moment_ltb (fst x) (fst y).

(** [a] is not after [b] in the order of the sort keys. *)
Definition key_le (a b : canonical) : Prop :=
  rank_ltb (sort_rank b) (sort_rank a) = false.

(** The date object is a plain date. *)
Definition is_plain_date (c : canonical) : bool :=
  match date_of c with DDate _ => true | DDateTime _ _ => false end.

(** The summary is a string. *)
Definition has_text_summary (c : canonical) : bool :=
  match summary c with VStr _ => true | _ => false end.

(** The stable insertion sort of [list_sort], on the ordered tuples. *)
Fixpoint rank_insert (x : canonical) (sorted : list canonical) : list canonical :=
  match sorted with
  | [] => [x]
  | y :: rest =>
      if rank_ltb (sort_rank y) (sort_rank x) then y :: rank_insert x rest
      else x :: sorted
  end.

Fixpoint rank_sort (l : list canonical) : list canonical :=
  match l with
  | [] => []
  | x :: rest => rank_insert x (rank_sort rest)
  end.

(** A strict total order given by its boolean test. *)
Record strict_total {T : Type} (lt : T -> T -> bool) : Prop := {
  st_irrefl : forall a, lt a a = false;
  st_trans : forall a b c, lt a b = true -> lt b c = true -> lt a c = true;
  st_total : forall a b, lt a b = false -> lt b a = false -> a = b
}.

(** ** Notions for the further properties *)

(** The reading of an escaped text: a backslash joins the next character,
    which stands for itself, or for a newline when it is the letter n. *)
Fixpoint unescape_text (s : string) : string :=
  match s with
  | "" => ""
  | String c s' =>
      if Ascii.eqb c "\" then
        match s' with
        | "" => String c ""
        | String d s'' =>
            String (if Ascii.eqb d "n" then LF else d) (unescape_text s'')
        end
      else String c (unescape_text s')
  end.

(** Characters of [[a-z0-9]] separated by single hyphens; [after_hyphen]
    tells that the previous character was a hyphen (or that the text
    starts here). *)
Fixpoint slug_tail (after_hyphen : bool) (s : string) : bool :=
  match s with
  | "" => negb after_hyphen
  | String c s' =>
      if Slug.is_slug_char c then slug_tail false s'
      else if Ascii.eqb c "-" then negb after_hyphen && slug_tail true s'
      else false
  end.

(** A well-formed slug: not empty, made of [[a-z0-9]] and single hyphens,
    with no hyphen at either end. *)
Definition is_slug (s : string) : bool := slug_tail true s.

(** Characters of [[a-z0-9]] and hyphens, no two hyphens in a row. *)
Fixpoint runs_ok (after_hyphen : bool) (s : string) : bool :=
  match s with
  | "" => true
  | String c s' =>
      if Slug.is_slug_char c then runs_ok false s'
      else Ascii.eqb c "-" && negb after_hyphen && runs_ok true s'
  end.

(** A text with no white space at its start. *)
Definition no_leading_space (s : string) : bool :=
  match s with
  | "" => true
  | String c _ => negb (Cli.is_space c)
  end.

(** A text with no white space at its end. *)
Fixpoint no_trailing_space (s : string) : bool :=
  match s with
  | "" => true
  | String c "" => negb (Cli.is_space c)
  | String _ s' => no_trailing_space s'
  end.

(** A value as JSON has it: no date or datetime object inside. *)
Fixpoint json_like (v : value) : bool :=
  match v with
  | VNone | VBool _ | VInt _ | VFloat _ | VStr _ => true
  | VList elems => forallb json_like elems
  | VDict items => forallb (fun kv : string * value => json_like (snd kv)) items
  | VDate _ | VDateTime _ _ => false
  end.

(** The category of a record, before it is made a list. *)
Definition event_category (event : dict) : value :=
  dict_get "rankName" event or' dict_get "rank" event
    or' dict_get "type" event or' dict_get "classification" event
    or' VStr "Celebration".

(** The records of a list that have a given sort key, in their order. *)
Definition with_rank (k : (date * time) * string) (l : list canonical)
  : list canonical :=
  filter (fun c => moment_eqb (fst (sort_rank c)) (fst k)
                   && String.eqb (snd (sort_rank c)) (snd k)) l.

(** An event block: it opens and closes with the markers, and no line has
    more than 75 characters. *)
Definition well_formed_block (lines : list string) : Prop :=
  hd "" lines = "BEGIN:VEVENT"
  /\ last lines "" = "END:VEVENT"
  /\ Forall (fun line => (String.length line <= 75)%nat) lines.

(** The physical lines of a text: the pieces between the terminators CR LF;
    the last one is what follows the last terminator, empty when the text
    ends with it. *)
Fixpoint physical_lines (s : string) : list string :=
  match s with
  | "" => [""]
  | String c s' =>
      match s' with
      | "" => [String c ""]
      | String d s'' =>
          if Ascii.eqb c CR && Ascii.eqb d LF then "" :: physical_lines s''
          else
            match physical_lines s' with
            | [] => [String c ""]
            | line :: rest => String c line :: rest
            end
      end
  end.

(** A line inside an event block: it holds no line feed, is neither of the
    two markers of a block, and has at most 75 characters. *)
Definition content_line (line : string) : Prop :=
  Str.contains LF line = false
  /\ line <> "BEGIN:VEVENT" /\ line <> "END:VEVENT"
  /\ (String.length line <= 75)%nat.

(** An event block as the text shows it: the opening marker, content lines,
    the closing marker. *)
Definition delimited_block (lines : list string) : Prop :=
  exists inner : list string,
    lines = ("BEGIN:VEVENT" :: inner ++ ["END:VEVENT"])%list
    /\ Forall content_line inner.

(** ** Sample records *)

(** A record with an empty name and a title. *)
Definition sample_easter : dict :=
  [("date", VDate (Date 2025 4 20)); ("name", VStr "");
   ("title", VStr "Easter Sunday")].

Definition sample_easter_canonical : canonical := {|
  uid := "bd9a750a-c234-5992-ad32-3d4a2996315e@catholic.calendar";
  summary := VStr "Easter Sunday";
  description := "";
  categories := [VStr "Celebration"];
  date_of := DDate (Date 2025 4 20)
|}.

(** A record with an explicit identifier that has two at-signs. *)
Definition sample_explicit_uid : dict :=
  [("date", VDate (Date 2025 4 20)); ("name", VStr "Easter Sunday");
   ("uid", VStr "easter@parish@example.org")].

(** Two records of the same day, given as datetime objects at midnight and
    at noon. *)
Definition sample_mary_midnight : dict :=
  [("date", VDateTime (Date 2025 1 1) (Time 0 0 0)); ("name", VStr "Mary")].

Definition sample_mary_noon : dict :=
  [("date", VDateTime (Date 2025 1 1) (Time 12 0 0)); ("name", VStr "Mary")].






(** Two records of the same day and summary, told apart by their explicit
    identifier. *)
Definition sample_vigil : dict :=
  [("date", VDate (Date 2025 4 20)); ("name", VStr "Easter Sunday");
   ("uid", VStr "vigil@example.org")].

Definition sample_day : dict :=
  [("date", VDate (Date 2025 4 20)); ("name", VStr "Easter Sunday");
   ("uid", VStr "day@example.org")].

(** A record of New Year's Day. *)
Definition sample_new_year : dict :=
  [("date", VStr "2025-01-01"); ("name", VStr "Mary, Mother of God");
   ("rankName", VStr "SOLEMNITY")].

(** A record of Easter Sunday with a note, its name written differently. *)
Definition sample_easter_note : dict :=
  [("date", VStr "2025-04-20T00:00:00.000Z"); ("name", VStr "Easter Sunday!");
   ("note", VStr "Resurrection of the Lord")].

(** A configuration whose product id has 80 characters. *)
Definition sample_long_prodid : CalendarConfig := {|
  name := "General Roman Calendar";
  prodid := "-//Catholic Calendar//General Roman Calendar of the Roman Rite, modern form//EN";
  domain := "catholic.calendar";
  timezone := "UTC"
|}.

Definition sample_clock : clock := (Date 2026 1 2, Time 3 4 5).

(** * Properties *)

(** ** Strings *)

Lemma append_assoc (a b c : string) : (a ++ b) ++ c = a ++ (b ++ c).
Proof. induction a as [|x a IH]; simpl; [reflexivity | now rewrite IH]. Qed.

Lemma append_nil_r (a : string) : a ++ "" = a.
Proof. induction a as [|x a IH]; simpl; [reflexivity | now rewrite IH]. Qed.

Lemma length_append (a b : string) :
  String.length (a ++ b) = (String.length a + String.length b)%nat.
Proof. induction a as [|x a IH]; simpl; [reflexivity | now rewrite IH]. Qed.

Lemma take_length (n : nat) (s : string) :
  String.length (Str.take n s) = Nat.min n (String.length s).
Proof.
  revert s; induction n as [|n IH]; intros [|c s]; simpl; auto.
Qed.

Lemma take_drop (n : nat) (s : string) : Str.take n s ++ Str.drop n s = s.
Proof.
  revert s; induction n as [|n IH]; intros [|c s]; simpl; auto.
  now rewrite IH.
Qed.

Lemma replace_append (old : ascii) (new a b : string) :
  Str.replace old new (a ++ b) = Str.replace old new a ++ Str.replace old new b.
Proof.
  induction a as [|x a IH]; simpl; [reflexivity |].
  destruct (Ascii.eqb x old); rewrite IH; simpl;
    [now rewrite append_assoc | reflexivity].
Qed.

Lemma count_append (c : ascii) (a b : string) :
  Str.count c (a ++ b) = (Str.count c a + Str.count c b)%nat.
Proof.
  induction a as [|x a IH]; simpl; [reflexivity |]. rewrite IH. lia.
Qed.

Lemma contains_count (c : ascii) (s : string) :
  Str.contains c s = negb (Str.count c s =? 0)%nat.
Proof.
  induction s as [|x s IH]; simpl; [reflexivity |].
  destruct (Ascii.eqb x c); simpl; [reflexivity | exact IH].
Qed.

(** ** The escaping (C6) *)

Lemma escape_text_append (a b : string) :
  _escape_text (a ++ b) = _escape_text a ++ _escape_text b.
Proof. unfold _escape_text. now rewrite !replace_append. Qed.

Lemma escape_text_char (c : ascii) :
  _escape_text (String c "") = Spec.escape_char c.
Proof. destruct c as [[] [] [] [] [] [] [] []]; reflexivity. Qed.

Lemma escape_text_cons (c : ascii) (s : string) :
  _escape_text (String c s) = Spec.escape_char c ++ _escape_text s.
Proof.
  change (String c s) with (String c "" ++ s).
  now rewrite escape_text_append, escape_text_char.
Qed.

Lemma escape_char_plain (c : ascii) :
  Spec.is_special c = false -> Spec.escape_char c = String c "".
Proof.
  unfold Spec.is_special, Spec.escape_char. intros H.
  repeat (apply orb_false_elim in H; destruct H as [H ?]).
  now repeat match goal with E : Ascii.eqb _ _ = false |- _ => rewrite E; clear E end.
Qed.

(** C6. [_escape_text] is the chain of the five replacements in the order
    backslash, newline, carriage return, comma, semicolon; its result is the
    text in which every character is escaped on its own (a backslash doubled,
    a newline written backslash-n, a carriage return removed, a comma and a
    semicolon preceded by a backslash), so no escape is escaped again; and a
    text without any of the five characters is returned unchanged. *)
Theorem escape_text_spec :
  (forall s : string,
      _escape_text s =
      Str.replace ";" "\;"
        (Str.replace "," "\,"
           (Str.replace CR ""
              (Str.replace LF "\n" (Str.replace "\" "\\" s)))))
  /\ (forall s : string, _escape_text s = Str.flat_map Spec.escape_char s)
  /\ (forall s : string,
         Str.forallb (fun c => negb (Spec.is_special c)) s = true ->
         _escape_text s = s).
Proof.
  split; [reflexivity | split].
  - induction s as [|c s IH]; [reflexivity |].
    rewrite escape_text_cons, IH. reflexivity.
  - induction s as [|c s IH]; [reflexivity |].
    simpl Str.forallb. intros H. apply andb_true_iff in H. destruct H as [Hc Hs].
    rewrite escape_text_cons, (IH Hs), escape_char_plain; [reflexivity |].
    now apply negb_true_iff.
Qed.

Lemma escape_text_spec_witness :
  Str.forallb (fun c => negb (Spec.is_special c)) "Easter Sunday" = true
  /\ _escape_text "Easter Sunday" = "Easter Sunday".
Proof.
  split; [reflexivity |].
  apply (proj2 (proj2 escape_text_spec) "Easter Sunday"). reflexivity.
Defined.

(** ** The feed header and the empty feed (C1, C10) *)

Lemma join_crlf_terminated (lines : list string) :
  lines <> [] ->
  Str.join CRLF lines ++ CRLF = Spec.crlf_terminated lines.
Proof.
  induction lines as [|x [|y rest] IH]; intros Hne.
  - contradiction.
  - reflexivity.
  - change (Str.join CRLF (x :: y :: rest))
      with (x ++ CRLF ++ Str.join CRLF (y :: rest)).
    rewrite !append_assoc, IH by discriminate. reflexivity.
Qed.

(** C10. Serialising no event succeeds, whatever the configuration, and gives
    the six header lines (begin marker, product id, VERSION:2.0,
    CALSCALE:GREGORIAN, escaped name, escaped time zone) and then the end
    marker, each line followed by CR LF. *)
Theorem build_icalendar_empty (now : clock) (config : option CalendarConfig) :
  let cfg := match config with Some c => c | None => default_config end in
  build_icalendar now [] config =
  Ok (Spec.crlf_terminated
        [ "BEGIN:VCALENDAR";
          "PRODID:" ++ prodid cfg;
          "VERSION:2.0";
          "CALSCALE:GREGORIAN";
          "X-WR-CALNAME:" ++ _escape_text (name cfg);
          "X-WR-TIMEZONE:" ++ _escape_text (timezone cfg);
          "END:VCALENDAR" ]).
Proof.
  intros cfg. unfold build_icalendar. fold cfg.
  cbn [mapM bind list_sort List.concat]. f_equal.
  rewrite join_crlf_terminated by (unfold header_lines; discriminate).
  reflexivity.
Qed.

(** C1. The feed configuration has the four fields name, product id, domain
    and time zone only: the configuration step of the command line, which
    passes the method, the refresh interval and the published TTL as further
    keywords, raises [TypeError] for every choice of options, and a feed is
    never produced with those properties. *)
Theorem generate_calendar_rejects_method
        (now : clock) (events : list dict) (o : Cli.options) :
  Cli.generate_calendar now events o =
  Error (Exn TypeError "__init__() got an unexpected keyword argument 'method'").
Proof. reflexivity. Qed.

(** ** Line folding (C4) *)

Lemma concat_cons_empty (x : string) (l : list string) :
  String.concat "" (x :: l) = x ++ String.concat "" l.
Proof. destruct l; simpl; [now rewrite append_nil_r | reflexivity]. Qed.

(** The loop cuts the remainder into pieces of at most 74 characters, each
    written after a space. *)
Lemma fold_loop_chunks (remainder : string) :
  exists chunks : list string,
    fold_loop remainder = map (fun c => " " ++ c) chunks
    /\ Forall (fun c => (String.length c <= 74)%nat) chunks
    /\ String.concat "" chunks = remainder.
Proof.
  funelim (fold_loop remainder).
  - destruct H as (chunks & Hf & Hlen & Hcat).
    change (match remainder with
            | "" => remainder
            | String _ s' => Str.drop 73 s'
            end)
      with (Str.drop (_MAX_LINE_LENGTH - 1) remainder) in Hf, Hcat.
    exists (Str.take (_MAX_LINE_LENGTH - 1) remainder :: chunks).
    split; [| split].
    + rewrite Hf. reflexivity.
    + constructor; [| exact Hlen].
      rewrite take_length. unfold _MAX_LINE_LENGTH. lia.
    + rewrite concat_cons_empty, Hcat. apply take_drop.
  - exists [remainder]. split; [reflexivity | split].
    + constructor; [| constructor]. unfold _MAX_LINE_LENGTH in *. lia.
    + reflexivity.
Qed.

(** C4. A line of at most 75 characters is left as it is. A longer line is
    cut into its first 75 characters and continuation fragments, each one
    space followed by at most 74 further characters of the line, in order.
    So every fragment has at most 75 characters, and the first fragment
    followed by the continuation fragments without their leading space is the
    line again. *)
Theorem fold_line_spec (line : string) :
  ((String.length line <= 75)%nat -> _fold_line line = [line])
  /\ ((75 < String.length line)%nat ->
      exists chunks : list string,
        chunks <> []
        /\ _fold_line line = Str.take 75 line :: map (fun c => " " ++ c) chunks
        /\ String.length (Str.take 75 line) = 75%nat
        /\ Forall (fun c => (String.length c <= 74)%nat) chunks
        /\ String.concat "" chunks = Str.drop 75 line)
  /\ Forall (fun fragment => (String.length fragment <= 75)%nat) (_fold_line line)
  /\ Spec.unfold_lines (_fold_line line) = line.
Proof.
  unfold _fold_line, _MAX_LINE_LENGTH.
  destruct (Nat.leb (String.length line) 75) eqn:Hle.
  - apply Nat.leb_le in Hle. repeat split.
    + intros Hgt. lia.
    + constructor; [exact Hle | constructor].
    + simpl. apply append_nil_r.
  - apply Nat.leb_gt in Hle.
    destruct (fold_loop_chunks (Str.drop 75 line)) as (chunks & Hf & Hlen & Hcat).
    assert (Htake : String.length (Str.take 75 line) = 75%nat)
      by (rewrite take_length; lia).
    repeat split.
    + intros Hcontra. lia.
    + intros _. exists chunks.
      split; [| split; [| split; [| split]]]; auto.
      * intros ->.
        assert (Hd := drop_length 75 line). rewrite <- Hcat in Hd.
        cbn [String.concat String.length] in Hd. lia.
      * now rewrite Hf.
    + constructor; [rewrite Htake; lia |]. rewrite Hf.
      apply Forall_map. eapply Forall_impl; [| exact Hlen].
      intros c Hc. cbv beta in *. cbn [String.length append]. lia.
    + unfold Spec.unfold_lines. rewrite Hf, map_map.
      rewrite (map_ext _ (fun c => c)) by reflexivity.
      rewrite map_id, Hcat. apply take_drop.
Qed.

Lemma fold_line_spec_witness :
  (String.length "SUMMARY:Easter Sunday" <= 75)%nat
  /\ _fold_line "SUMMARY:Easter Sunday" = ["SUMMARY:Easter Sunday"].
Proof.
  split; [simpl; lia |].
  apply (proj1 (fold_line_spec "SUMMARY:Easter Sunday")). simpl; lia.
Defined.

(** ** The stringifier (C9) *)

Lemma mapM_if_filter {A B : Type} (p : A -> bool) (f : A -> result B) (l : list A) :
  mapM_if p f l = mapM f (filter p l).
Proof.
  induction l as [|x l IH]; simpl; [reflexivity |].
  destruct (p x); simpl; now rewrite IH.
Qed.

Lemma mapM_ext {A B : Type} (f g : A -> result B) (l : list A) :
  (forall x, f x = g x) -> mapM f l = mapM g l.
Proof.
  intros H. induction l as [|x l IH]; simpl; [reflexivity |].
  now rewrite H, IH.
Qed.

(** C9, as the code has it. The stringifier maps null to the empty string, a
    boolean to Yes or No, a number to its decimal text (for an integer its
    decimal digits, which read back as the integer; for a float the text
    [str] gives it), a string to itself,
    a sequence to its non-null elements, stringified and joined by comma and
    space, and a mapping to the pairs [key: value] of its entries whose value
    is not null, the values stringified, joined by semicolon and space. Any
    other value (a date or datetime object) is handed to the JSON dump, whose
    result is returned; for these values the dump raises [TypeError]. *)
Theorem stringify_rules :
  _stringify VNone = Ok ""
  /\ (forall b : bool, _stringify (VBool b) = Ok (if b then "Yes" else "No"))
  /\ (forall z : Z,
         _stringify (VInt z) = Ok (str_of_Z z)
         /\ option_map Z.of_int (NilEmpty.int_of_string (str_of_Z z)) = Some z)
  /\ (forall x : pyfloat,
         _stringify (VFloat x) = Ok (py_str (VFloat x))
         /\ py_str (VFloat x) = float_str x)
  /\ (forall s : string, _stringify (VStr s) = Ok s)
  /\ (forall elems : list value,
         _stringify (VList elems) =
         parts <- mapM _stringify (filter (fun elem => negb (is_none elem)) elems) ;;
         Ok (Str.join ", " parts))
  /\ (forall items : list (string * value),
         _stringify (VDict items) =
         parts <- mapM (fun kv => t <- _stringify (snd kv) ;;
                                  Ok (fst kv ++ ": " ++ t))
                       (filter (fun kv => negb (is_none (snd kv))) items) ;;
         Ok (Str.join "; " parts))
  /\ (forall d : date,
         _stringify (VDate d) = json_dumps (VDate d)
         /\ json_dumps (VDate d) =
            Error (Exn TypeError "Object of type date is not JSON serializable"))
  /\ (forall (d : date) (t : time),
         _stringify (VDateTime d t) = json_dumps (VDateTime d t)
         /\ json_dumps (VDateTime d t) =
            Error (Exn TypeError
                     "Object of type datetime is not JSON serializable")).
Proof.
  repeat split; try reflexivity.
  - unfold str_of_Z. rewrite NilEmpty.isi. cbn [option_map].
    rewrite DecimalZ.of_to. reflexivity.
  - intros elems. cbn [_stringify]. now rewrite mapM_if_filter.
  - intros items. cbn [_stringify]. rewrite mapM_if_filter.
    rewrite (mapM_ext _ (fun kv => t <- _stringify (snd kv) ;;
                                   Ok (fst kv ++ ": " ++ t)))
      by (now intros [key val]).
    reflexivity.
Qed.

(** C9 as it is worded gives a pair for every entry of a mapping; the code
    leaves out the entries whose value is null. *)
Lemma stringify_null_entry_counterexample :
  _stringify (VDict [("color", VNone)]) <> Spec.stringify (VDict [("color", VNone)]).
Proof. vm_compute. discriminate. Qed.

(** ** The summary (C7) *)

Ltac inv_bind H :=
  repeat match type of H with
         | bind ?m _ = Ok _ =>
             let E := fresh "E" in
             destruct m eqn:E; cbn [bind] in H; [| discriminate H]
         end.

Lemma normalise_event_inv (event : dict) (cfg : CalendarConfig) (c : canonical) :
  _normalise_event event cfg = Ok c ->
  event_date event = Ok (date_of c)
  /\ summary c = event_summary event
  /\ event_uid event cfg (date_of c) = Ok (uid c).
Proof.
  unfold _normalise_event. intros H. inv_bind H.
  injection H as <-. cbn [date_of summary uid].
  split; [| split].
  - unfold event_date, Spec.date_entry.
    destruct (dict_contains "date" event); [exact E |].
    destruct (dict_contains "start" event); [exact E | discriminate E].
  - reflexivity.
  - exact E0.
Qed.

Lemma truthy_or (a b : value) : truthy b = true -> truthy (a or' b) = true.
Proof. unfold py_or. now destruct (truthy a) eqn:Ha. Qed.

Lemma or_first_truthy (a : value) (rest : list value) (default : value) :
  Spec.first_truthy (a :: rest) default = a or' Spec.first_truthy rest default.
Proof. reflexivity. Qed.

Lemma or_assoc (a b c : value) : (a or' b) or' c = a or' (b or' c).
Proof. unfold py_or. destruct (truthy a) eqn:Ha; [now rewrite Ha | reflexivity]. Qed.

(** C7, as the code has it. The summary of a normalised record is the first
    value among the keys name, title, celebration and id, in that order, that
    is true in a condition (not null, not false, not zero, not empty), and
    the default "Unnamed Celebration" when none of them is; it is always true
    in a condition, so a summary that is a string is not empty. *)
Theorem summary_first_truthy (event : dict) (cfg : CalendarConfig) (c : canonical) :
  _normalise_event event cfg = Ok c ->
  summary c =
    Spec.first_truthy
      [dict_get "name" event; dict_get "title" event;
       dict_get "celebration" event; dict_get "id" event]
      (VStr "Unnamed Celebration")
  /\ truthy (summary c) = true
  /\ (forall s : string, summary c = VStr s -> s <> "").
Proof.
  intros H. destruct (normalise_event_inv _ _ H) as (_ & Hs & _).
  assert (Ht : truthy (summary c) = true).
  { rewrite Hs. unfold event_summary. now apply truthy_or. }
  split; [| split].
  - rewrite Hs. unfold event_summary. rewrite !or_first_truthy.
    cbn [Spec.first_truthy]. rewrite !or_assoc. reflexivity.
  - exact Ht.
  - intros s Heq ->. rewrite Heq in Ht. discriminate Ht.
Qed.

Lemma summary_first_truthy_witness :
  _normalise_event sample_easter default_config = Ok sample_easter_canonical
  /\ summary sample_easter_canonical = VStr "Easter Sunday"
  /\ truthy (summary sample_easter_canonical) = true.
Proof.
  assert (H : _normalise_event sample_easter default_config
              = Ok sample_easter_canonical) by (vm_compute; reflexivity).
  destruct (summary_first_truthy _ _ H) as (Hs & Ht & _).
  split; [exact H | split; [exact Hs | exact Ht]].
Defined.

(** C7 as it is worded takes the first value that is not null: an empty
    name would be the summary, while the code goes on to the title. *)
Lemma summary_empty_name_counterexample :
  match _normalise_event sample_easter default_config with
  | Ok c => summary c <> Spec.summary sample_easter
  | Error _ => False
  end.
Proof. vm_compute. discriminate. Qed.

(** ** The identifier (C5, C8) *)

Lemma hex_digit_not_at (n : Z) : Ascii.eqb (hex_digit n) "@" = false.
Proof.
  unfold hex_digit. generalize (Z.to_nat n). intros k.
  do 16 (destruct k as [|k]; [reflexivity |]).
  destruct k; reflexivity.
Qed.

Lemma count_at_hex (bytes : list Z) : Str.count "@" (Uuid.hex bytes) = 0%nat.
Proof.
  induction bytes as [|b bytes IH]; [reflexivity |].
  unfold Uuid.hex in *. cbn [fold_right]. rewrite count_append, IH.
  unfold hex2. cbn [Str.count]. rewrite !hex_digit_not_at. reflexivity.
Qed.

(** The text of a UUID has no at-sign. *)
Lemma count_at_uuid (name : string) : Str.count "@" (Uuid.uuid5_url name) = 0%nat.
Proof.
  unfold Uuid.uuid5_url, Uuid.to_str.
  rewrite !count_append, !count_at_hex. reflexivity.
Qed.

(** C5, as the code has it. The identifier of a normalised record is the
    text of the explicit uid or identifier, followed by the at-sign and the
    domain unless that text already has an at-sign, or else the UUID derived
    from the date and the slug, followed by the at-sign and the domain. It
    always has at least one at-sign; it has exactly one when the domain has
    none and the text of the explicit identifier has at most one. *)
Theorem uid_at_sign (event : dict) (cfg : CalendarConfig) (c : canonical) :
  _normalise_event event cfg = Ok c ->
  event_uid event cfg (date_of c) = Ok (uid c)
  /\ (1 <= Str.count "@" (uid c))%nat
  /\ (Str.count "@" (domain cfg) = 0%nat ->
      (Str.count "@" (py_str (event_explicit_uid event)) <= 1)%nat ->
      Str.count "@" (uid c) = 1%nat).
Proof.
  intros H. destruct (normalise_event_inv _ _ H) as (_ & _ & Hu).
  split; [exact Hu |].
  unfold event_uid in Hu. cbv zeta in Hu.
  destruct (truthy (event_explicit_uid event)) eqn:Ht.
  - injection Hu as Hu. rewrite <- Hu. rewrite contains_count.
    destruct (Str.count "@" (py_str (event_explicit_uid event))) as [|n] eqn:Hn;
      cbn [Nat.eqb negb].
    + rewrite !count_append, Hn. cbn [Str.count Ascii.eqb Bool.eqb].
      split; [lia |]. intros Hd _. simpl. lia.
    + rewrite Hn. split; [lia |]. intros _ Hle. lia.
  - destruct (event_slug event) as [slug | e]; [| discriminate Hu].
    cbn [bind] in Hu. injection Hu as Hu. rewrite <- Hu.
    rewrite !count_append, count_at_uuid. cbn [Str.count Ascii.eqb Bool.eqb].
    split; [simpl; lia |]. intros Hd _. simpl. lia.
Qed.

Lemma uid_at_sign_witness :
  _normalise_event sample_easter default_config = Ok sample_easter_canonical
  /\ Str.count "@" (domain default_config) = 0%nat
  /\ (Str.count "@" (py_str (event_explicit_uid sample_easter)) <= 1)%nat
  /\ Str.count "@" (uid sample_easter_canonical) = 1%nat.
Proof.
  assert (H : _normalise_event sample_easter default_config
              = Ok sample_easter_canonical) by (vm_compute; reflexivity).
  assert (Hd : Str.count "@" (domain default_config) = 0%nat) by reflexivity.
  assert (Hu : (Str.count "@" (py_str (event_explicit_uid sample_easter)) <= 1)%nat)
    by (vm_compute; lia).
  split; [exact H | split; [exact Hd | split; [exact Hu |]]].
  exact (proj2 (proj2 (uid_at_sign _ _ H)) Hd Hu).
Defined.

(** C5 as it is worded asks for exactly one at-sign; an explicit identifier
    with two of them is kept as it is. *)
Lemma uid_two_at_signs_counterexample :
  match _normalise_event sample_explicit_uid default_config with
  | Ok c => Str.count "@" (uid c) <> 1%nat
  | Error _ => False
  end.
Proof. vm_compute. discriminate. Qed.

(** Without explicit identifier, the identifier is a function of the date
    object, the slug and the domain. *)
Lemma derived_uid_deterministic
      (e1 e2 : dict) (cfg : CalendarConfig) (c1 c2 : canonical) (slug : string) :
  truthy (event_explicit_uid e1) = false ->
  truthy (event_explicit_uid e2) = false ->
  _normalise_event e1 cfg = Ok c1 ->
  _normalise_event e2 cfg = Ok c2 ->
  date_of c1 = date_of c2 ->
  event_slug e1 = Ok slug ->
  event_slug e2 = Ok slug ->
  uid c1 = uid c2.
Proof.
  intros Ht1 Ht2 H1 H2 Hd Hs1 Hs2.
  destruct (normalise_event_inv _ _ H1) as (_ & _ & Hu1).
  destruct (normalise_event_inv _ _ H2) as (_ & _ & Hu2).
  unfold event_uid in Hu1, Hu2. cbv zeta in Hu1, Hu2.
  rewrite Ht1, Hs1 in Hu1. rewrite Ht2, Hs2 in Hu2. cbn [bind] in Hu1, Hu2.
  rewrite Hd in Hu1. congruence.
Qed.

(** C8, at two records of the same calendar day and the same slug, without
    explicit identifier: a datetime object passes the test for a date in
    [_parse_date] and is kept with its time of day, which enters the seed;
    the two derived identifiers differ. *)
Theorem derived_uid_datetime_differs :
  exists (c1 c2 : canonical) (slug : string),
    _normalise_event sample_mary_midnight default_config = Ok c1
    /\ _normalise_event sample_mary_noon default_config = Ok c2
    /\ truthy (event_explicit_uid sample_mary_midnight) = false
    /\ truthy (event_explicit_uid sample_mary_noon) = false
    /\ Spec.calendar_date (date_of c1) = Spec.calendar_date (date_of c2)
    /\ event_slug sample_mary_midnight = Ok slug
    /\ event_slug sample_mary_noon = Ok slug
    /\ uid c1 = "a7492656-2ceb-5cb8-aad2-b573a400420d@catholic.calendar"
    /\ uid c2 = "dd669f93-720b-52e7-bd08-758aac7bec84@catholic.calendar"
    /\ uid c1 <> uid c2.
Proof.
  do 3 eexists.
  split; [vm_compute; reflexivity |].
  split; [vm_compute; reflexivity |].
  repeat split; try reflexivity.
  discriminate.
Qed.

(** ** Date errors and their propagation (C2) *)

(** Induction on values, with the hypothesis for the elements of a list and
    for the values of a dict. *)
Lemma value_ind_nested (P : value -> Prop) :
  P VNone ->
  (forall b, P (VBool b)) ->
  (forall z, P (VInt z)) ->
  (forall x, P (VFloat x)) ->
  (forall s, P (VStr s)) ->
  (forall elems, Forall P elems -> P (VList elems)) ->
  (forall items, Forall (fun kv => P (snd kv)) items -> P (VDict items)) ->
  (forall d, P (VDate d)) ->
  (forall d t, P (VDateTime d t)) ->
  forall v, P v.
Proof.
  intros HNone HBool HInt HFloat HStr HList HDict HDate HDateTime.
  fix IH 1. intros [| b | z | x | s | elems | items | d | d t].
  - exact HNone.
  - apply HBool.
  - apply HInt.
  - apply HFloat.
  - apply HStr.
  - apply HList. induction elems as [|x elems IHl]; constructor; [apply IH | exact IHl].
  - apply HDict. induction items as [|[k x] items IHl]; constructor;
      [apply IH | exact IHl].
  - apply HDate.
  - apply HDateTime.
Qed.

Lemma mapM_error {A B : Type} (f : A -> result B) (l : list A) (e : exn) :
  mapM f l = Error e -> exists x, In x l /\ f x = Error e.
Proof.
  induction l as [|x l IH]; simpl; [discriminate |].
  destruct (f x) as [y | e'] eqn:Hx; simpl.
  - destruct (mapM f l) as [ys | e'']; simpl; [discriminate |].
    intros [= ->]. destruct (IH eq_refl) as (x' & Hin & Hx').
    exists x'. split; [right; exact Hin | exact Hx'].
  - intros [= ->]. exists x. split; [left; reflexivity | exact Hx].
Qed.

Lemma mapM_if_error {A B : Type} (p : A -> bool) (f : A -> result B)
      (l : list A) (e : exn) :
  mapM_if p f l = Error e -> exists x, In x l /\ f x = Error e.
Proof.
  rewrite mapM_if_filter. intros H.
  destruct (mapM_error _ _ H) as (x & Hin & Hx).
  exists x. split; [| exact Hx]. apply filter_In in Hin. tauto.
Qed.

Lemma json_dumps_error (v : value) (e : exn) :
  json_dumps v = Error e -> exists m, e = Exn TypeError (String "O" m).
Proof.
  revert e. induction v as [| b | z | x | s | elems IH | items IH | d | d t]
    using value_ind_nested; intros e; try discriminate.
  - cbn [json_dumps]. destruct (mapM json_dumps elems) as [parts | e'] eqn:Hm;
      cbn [bind]; [discriminate |].
    intros [= ->]. destruct (mapM_error _ _ Hm) as (x & Hin & Hx).
    rewrite Forall_forall in IH. exact (IH x Hin e Hx).
  - cbn [json_dumps].
    match goal with |- bind ?m _ = _ -> _ => destruct m as [parts | e'] eqn:Hm end;
      cbn [bind]; [discriminate |].
    intros [= ->]. destruct (mapM_error _ _ Hm) as ([k x] & Hin & Hx).
    rewrite Forall_forall in IH. specialize (IH (k, x) Hin e). cbn [snd] in IH.
    destruct (json_dumps x) as [t | e'] eqn:Hj; cbn [bind] in Hx; [discriminate |].
    injection Hx as ->. apply IH. reflexivity.
  - cbn. intros [= <-]. eexists. reflexivity.
  - cbn. intros [= <-]. eexists. reflexivity.
Qed.

Lemma stringify_error (v : value) (e : exn) :
  _stringify v = Error e -> exists m, e = Exn TypeError (String "O" m).
Proof.
  revert e. induction v as [| b | z | x | s | elems IH | items IH | d | d t]
    using value_ind_nested; intros e; try discriminate.
  - cbn [_stringify].
    match goal with |- bind ?m _ = _ -> _ => destruct m as [parts | e'] eqn:Hm end;
      cbn [bind]; [discriminate |].
    intros [= ->]. destruct (mapM_if_error _ _ _ Hm) as (x & Hin & Hx).
    rewrite Forall_forall in IH. exact (IH x Hin e Hx).
  - cbn [_stringify].
    match goal with |- bind ?m _ = _ -> _ => destruct m as [parts | e'] eqn:Hm end;
      cbn [bind]; [discriminate |].
    intros [= ->]. destruct (mapM_if_error _ _ _ Hm) as ([k x] & Hin & Hx).
    rewrite Forall_forall in IH. specialize (IH (k, x) Hin e). cbn [snd] in IH.
    destruct (_stringify x) as [t | e'] eqn:Hj; cbn [bind] in Hx; [discriminate |].
    injection Hx as ->. apply IH. reflexivity.
  - apply json_dumps_error.
  - apply json_dumps_error.
Qed.












Lemma zfill4_digits (n : Z) :
  0 <= n <= 9999 ->
  String.length (zfill 4 n) = 4%nat /\ Dt.parse_digits (zfill 4 n) = Some n.
Proof.
  intros Hn.
  assert (Hall : forallb (fun k : Z =>
                            (String.length (zfill 4 k) =? 4)%nat
                            && match Dt.parse_digits (zfill 4 k) with
                               | Some m => m =? k
                               | None => false
                               end)
                         (map Z.of_nat (seq 0 (Z.to_nat 10000))) = true)
    by (vm_compute; reflexivity).
  rewrite forallb_forall in Hall. specialize (Hall n).
  assert (Hin : In n (map Z.of_nat (seq 0 (Z.to_nat 10000)))).
  { apply in_map_iff. exists (Z.to_nat n). split; [lia |]. apply in_seq. lia. }
  apply Hall in Hin. apply andb_true_iff in Hin. destruct Hin as [Hl Hp].
  apply Nat.eqb_eq in Hl. split; [exact Hl |].
  destruct (Dt.parse_digits (zfill 4 n)) as [m |]; [| discriminate Hp].
  apply Z.eqb_eq in Hp. subst m. reflexivity.
Qed.

Lemma zfill2_digits (n : Z) :
  0 <= n <= 99 ->
  String.length (zfill 2 n) = 2%nat /\ Dt.parse_digits (zfill 2 n) = Some n.
Proof.
  intros Hn.
  assert (Hall : forallb (fun k : Z =>
                            (String.length (zfill 2 k) =? 2)%nat
                            && match Dt.parse_digits (zfill 2 k) with
                               | Some m => m =? k
                               | None => false
                               end)
                         (map Z.of_nat (seq 0 (Z.to_nat 100))) = true)
    by (vm_compute; reflexivity).
  rewrite forallb_forall in Hall. specialize (Hall n).
  assert (Hin : In n (map Z.of_nat (seq 0 (Z.to_nat 100)))).
  { apply in_map_iff. exists (Z.to_nat n). split; [lia |]. apply in_seq. lia. }
  apply Hall in Hin. apply andb_true_iff in Hin. destruct Hin as [Hl Hp].
  apply Nat.eqb_eq in Hl. split; [exact Hl |].
  destruct (Dt.parse_digits (zfill 2 n)) as [m |]; [| discriminate Hp].
  apply Z.eqb_eq in Hp. subst m. reflexivity.
Qed.

Lemma valid_bounds (d : date) :
  Dt.valid d = true ->
  0 <= year d <= 9999 /\ 0 <= month d <= 99 /\ 0 <= day d <= 99.
Proof.
  unfold Dt.valid, Dt.days_in_month. intros H.
  repeat (apply andb_true_iff in H; destruct H as [H ?]).
  repeat match goal with
         | E : (_ <=? _) = true |- _ => apply Z.leb_le in E
         end.
  repeat match goal with
         | E : context [if ?c then _ else _] |- _ => destruct c
         end; lia.
Qed.

(** A string that starts with a date in ISO format is read as that
    date. *)
Lemma parse_date_starts_with_date (d : date) (rest : string) :
  Dt.valid d = true ->
  _parse_date (VStr (Dt.isoformat d ++ rest)) = Ok (DDate d).
Proof.
  intros Hv. destruct (valid_bounds d Hv) as (Hy & Hm & Hd).
  destruct (zfill4_digits Hy) as [Ly Py].
  destruct (zfill2_digits Hm) as [Lm Pm].
  destruct (zfill2_digits Hd) as [Ld Pd].
  unfold Dt.isoformat.
  destruct (zfill 4 (year d)) as [|y1 [|y2 [|y3 [|y4 [|? ?]]]]];
    try discriminate Ly.
  destruct (zfill 2 (month d)) as [|m1 [|m2 [|? ?]]]; try discriminate Lm.
  destruct (zfill 2 (day d)) as [|d1 [|d2 [|? ?]]]; try discriminate Ld.
  unfold _parse_date. cbn [as_date as_datetime_date as_number].
  cbn [append Str.take]. unfold Dt.date_fromisoformat.
  cbn [String.length Nat.eqb negb Str.take Str.drop].
  rewrite Py, Pm, Pd.
  cbn [String.eqb Ascii.eqb Bool.eqb andb].
  destruct d as [y m dd]. cbn [year month day] in *. rewrite Hv. reflexivity.
Qed.






(** ** Sorting (C3) *)

Lemma st_asym {T : Type} (lt : T -> T -> bool) (a b : T) :
  strict_total lt -> lt a b = true -> lt b a = false.
Proof.
  intros H Hab. destruct (lt b a) eqn:Hba; [| reflexivity].
  rewrite <- (st_irrefl H a). symmetry. exact (st_trans H _ _ _ Hab Hba).
Qed.

(** Not being after is transitive. *)
Lemma st_le_trans {T : Type} (lt : T -> T -> bool) (a b c : T) :
  strict_total lt -> lt b a = false -> lt c b = false -> lt c a = false.
Proof.
  intros H Hba Hcb. destruct (lt c a) eqn:Hca; [| reflexivity].
  destruct (lt a b) eqn:Hab.
  - rewrite (st_trans H _ _ _ Hca Hab) in Hcb. discriminate.
  - rewrite (st_total H _ _ Hab Hba) in Hca. rewrite Hca in Hcb. discriminate.
Qed.

Ltac zbool :=
  repeat rewrite ?orb_true_iff, ?andb_true_iff, ?orb_false_iff, ?andb_false_iff,
    ?Z.ltb_lt, ?Z.ltb_ge, ?Z.eqb_eq, ?Z.eqb_neq in *.

Lemma date_eqb_eq (a b : date) : Dt.eqb a b = true <-> a = b.
Proof.
  destruct a as [y m d], b as [y' m' d']. unfold Dt.eqb. cbn [year month day].
  zbool. split.
  - intros [[-> ->] ->]. reflexivity.
  - intros [= -> -> ->]. auto.
Qed.

Lemma time_eqb_eq (a b : time) : Dt.time_eqb a b = true <-> a = b.
Proof.
  destruct a as [h m s], b as [h' m' s']. unfold Dt.time_eqb.
  cbn [hour minute second]. zbool. split.
  - intros [[-> ->] ->]. reflexivity.
  - intros [= -> -> ->]. auto.
Qed.

Lemma moment_eqb_eq (x y : date * time) : moment_eqb x y = true <-> x = y.
Proof.
  destruct x as [d t], y as [d' t']. unfold moment_eqb. cbn [fst snd].
  rewrite andb_true_iff, date_eqb_eq, time_eqb_eq. split.
  - intros [-> ->]. reflexivity.
  - intros [= -> ->]. auto.
Qed.

Lemma moment_ltb_strict : strict_total moment_ltb.
Proof.
  split.
  - intros [[y m d] [h mi s]]. unfold moment_ltb, Dt.ltb, Dt.eqb, Dt.time_ltb.
    cbn [fst snd year month day hour minute second].
    zbool. lia.
  - intros [[y m d] [h mi s]] [[y' m' d'] [h' mi' s']] [[y'' m'' d''] [h'' mi'' s'']].
    unfold moment_ltb, Dt.ltb, Dt.eqb, Dt.time_ltb.
    cbn [fst snd year month day hour minute second].
    zbool. lia.
  - intros [[y m d] [h mi s]] [[y' m' d'] [h' mi' s']].
    unfold moment_ltb, Dt.ltb, Dt.eqb, Dt.time_ltb.
    cbn [fst snd year month day hour minute second].
    zbool. intros H1 H2.
    assert (y = y' /\ m = m' /\ d = d' /\ h = h' /\ mi = mi' /\ s = s') by lia.
    destruct H as (-> & -> & -> & -> & -> & ->). reflexivity.
Qed.

Lemma ord_inj (a b : ascii) : Str.ord a = Str.ord b -> a = b.
Proof.
  unfold Str.ord. intros H. apply Nat2Z.inj in H.
  rewrite <- (ascii_nat_embedding a), <- (ascii_nat_embedding b), H. reflexivity.
Qed.

Lemma str_ltb_strict : strict_total Str.ltb.
Proof.
  split.
  - induction a as [|c a IH]; [reflexivity |].
    cbn [Str.ltb]. rewrite Ascii.eqb_refl. exact IH.
  - induction a as [|x a IH]; intros [|y b] [|z c]; cbn [Str.ltb];
      try discriminate; try reflexivity.
    destruct (Ascii.eqb_spec x y) as [-> | Hxy].
    + destruct (Ascii.eqb_spec y z) as [-> | Hyz]; [apply IH | auto].
    + destruct (Ascii.eqb_spec y z) as [-> | Hyz].
      * destruct (Ascii.eqb_spec x z); [contradiction | auto].
      * intros H1 H2. apply Z.ltb_lt in H1, H2.
        destruct (Ascii.eqb_spec x z) as [-> | Hxz]; [lia |].
        apply Z.ltb_lt. lia.
  - induction a as [|x a IH]; intros [|y b]; cbn [Str.ltb];
      try discriminate; try reflexivity.
    destruct (Ascii.eqb_spec x y) as [-> | Hxy].
    + rewrite Ascii.eqb_refl. intros H1 H2. f_equal. apply IH; assumption.
    + destruct (Ascii.eqb_spec y x) as [-> | Hyx]; [contradiction |].
      intros H1 H2. apply Z.ltb_ge in H1, H2.
      exfalso. apply Hxy. apply ord_inj. lia.
Qed.

Lemma rank_ltb_strict : strict_total rank_ltb.
Proof.
  pose proof moment_ltb_strict as Hm. pose proof str_ltb_strict as Hs.
  split.
  - intros [x s]. unfold rank_ltb. cbn [fst snd].
    rewrite (proj2 (moment_eqb_eq x x) eq_refl). apply (st_irrefl Hs).
  - intros [x s] [y t] [z u]. unfold rank_ltb. cbn [fst snd].
    destruct (moment_eqb x y) eqn:Exy.
    + apply moment_eqb_eq in Exy. subst y.
      destruct (moment_eqb x z) eqn:Exz; [apply (st_trans Hs) | auto].
    + destruct (moment_eqb y z) eqn:Eyz.
      * apply moment_eqb_eq in Eyz. subst z. rewrite Exy. auto.
      * intros H1 H2. pose proof (st_trans Hm _ _ _ H1 H2) as H3.
        destruct (moment_eqb x z) eqn:Exz; [| exact H3].
        apply moment_eqb_eq in Exz. subst z.
        rewrite (st_irrefl Hm) in H3. discriminate.
  - intros [x s] [y t]. unfold rank_ltb. cbn [fst snd].
    destruct (moment_eqb x y) eqn:Exy.
    + apply moment_eqb_eq in Exy. subst y.
      rewrite (proj2 (moment_eqb_eq x x) eq_refl).
      intros H1 H2. f_equal. apply (st_total Hs); assumption.
    + destruct (moment_eqb y x) eqn:Eyx.
      * apply moment_eqb_eq in Eyx. subst y.
        rewrite (proj2 (moment_eqb_eq x x) eq_refl) in Exy. discriminate.
      * intros H1 H2. rewrite (st_total Hm _ _ H1 H2) in Exy.
        rewrite (proj2 (moment_eqb_eq y y) eq_refl) in Exy. discriminate.
Qed.

Lemma key_le_trans (a b c : canonical) : key_le a b -> key_le b c -> key_le a c.
Proof. unfold key_le. intros Hab Hbc. exact (@st_le_trans _ rank_ltb _ _ _ rank_ltb_strict Hab Hbc). Qed.

Lemma rank_insert_perm (x : canonical) (l : list canonical) :
  Permutation (x :: l) (rank_insert x l).
Proof.
  induction l as [|y l IH]; cbn [rank_insert]; [apply Permutation_refl |].
  destruct (rank_ltb (sort_rank y) (sort_rank x)); [| apply Permutation_refl].
  eapply Permutation_trans; [apply perm_swap |]. apply perm_skip. exact IH.
Qed.

Lemma rank_sort_perm (l : list canonical) : Permutation l (rank_sort l).
Proof.
  induction l as [|x l IH]; cbn [rank_sort]; [apply Permutation_refl |].
  eapply Permutation_trans; [apply perm_skip; exact IH | apply rank_insert_perm].
Qed.

Lemma rank_insert_sorted (x : canonical) (l : list canonical) :
  StronglySorted key_le l -> StronglySorted key_le (rank_insert x l).
Proof.
  induction l as [|y l IH]; intros Hs; cbn [rank_insert].
  - constructor; constructor.
  - apply StronglySorted_inv in Hs. destruct Hs as [Hl Hy].
    destruct (rank_ltb (sort_rank y) (sort_rank x)) eqn:Hlt.
    + constructor; [exact (IH Hl) |].
      apply (Permutation_Forall (rank_insert_perm x l)).
      constructor; [| exact Hy].
      unfold key_le. exact (@st_asym _ rank_ltb _ _ rank_ltb_strict Hlt).
    + constructor; [constructor; assumption |].
      constructor; [exact Hlt |].
      eapply Forall_impl; [| exact Hy].
      intros z Hz. exact (key_le_trans (b := y) Hlt Hz).
Qed.

Lemma rank_sort_sorted (l : list canonical) : StronglySorted key_le (rank_sort l).
Proof.
  induction l as [|x l IH]; cbn [rank_sort]; [constructor |].
  apply rank_insert_sorted. exact IH.
Qed.

(** Two sorted arrangements of the same records are equal when records with
    the same key are equal. *)
Lemma sorted_perm_unique (l1 l2 : list canonical) :
  StronglySorted key_le l1 -> StronglySorted key_le l2 ->
  Permutation l1 l2 ->
  (forall a b, In a l1 -> In b l1 -> sort_rank a = sort_rank b -> a = b) ->
  l1 = l2.
Proof.
  revert l2. induction l1 as [|a r1 IH]; intros l2 H1 H2 Hp Hk.
  - apply Permutation_nil in Hp. subst l2. reflexivity.
  - destruct l2 as [|b r2].
    + apply Permutation_sym, Permutation_nil in Hp. discriminate Hp.
    + apply StronglySorted_inv in H1. destruct H1 as [Hr1 Ha].
      apply StronglySorted_inv in H2. destruct H2 as [Hr2 Hb].
      rewrite Forall_forall in Ha, Hb.
      assert (Hab : a = b).
      { assert (Hin_b : In b (a :: r1))
          by (apply (Permutation_in b (Permutation_sym Hp)); left; reflexivity).
        assert (Hin_a : In a (b :: r2))
          by (apply (Permutation_in a Hp); left; reflexivity).
        destruct Hin_b as [Heq | Hb1]; [exact Heq |].
        destruct Hin_a as [Heq | Ha2]; [symmetry; exact Heq |].
        apply Hk; [left; reflexivity | right; exact Hb1 |].
        apply (st_total rank_ltb_strict).
        - exact (Hb a Ha2).
        - exact (Ha b Hb1). }
      subst b. f_equal. apply IH; try assumption.
      * exact (Permutation_cons_inv Hp).
      * intros x y Hx Hy. apply Hk; right; assumption.
Qed.

Lemma key_lt_rank (a b : canonical) :
  is_plain_date a = is_plain_date b ->
  has_text_summary a = true -> has_text_summary b = true ->
  key_lt a b = Ok (rank_ltb (sort_rank a) (sort_rank b)).
Proof.
  unfold is_plain_date, has_text_summary, key_lt, rank_ltb, sort_rank,
    moment_eqb, moment_ltb.
  destruct (summary a) as [| | | | s | | | |]; try discriminate.
  destruct (summary b) as [| | | | t | | | |]; try discriminate.
  destruct (date_of a) as [x | x u], (date_of b) as [y | y v];
    try discriminate; intros _ _ _;
    cbn [dv_eqb dv_lt summary_lt Spec.calendar_date fst snd].
  - change (Dt.time_eqb (Time 0 0 0) (Time 0 0 0)) with true.
    change (Dt.time_ltb (Time 0 0 0) (Time 0 0 0)) with false.
    rewrite andb_true_r, andb_false_r, orb_false_r.
    destruct (Dt.eqb x y); reflexivity.
  - destruct (Dt.eqb x y && Dt.time_eqb u v); reflexivity.
Qed.

Lemma key_lt_ok_kind (a b : canonical) (r : bool) :
  key_lt a b = Ok r -> is_plain_date a = is_plain_date b.
Proof.
  unfold key_lt, is_plain_date.
  destruct (date_of a), (date_of b); cbn [dv_eqb dv_lt];
    try reflexivity; discriminate.
Qed.

Lemma sort_insert_perm (x : canonical) (s s' : list canonical) :
  sort_insert x s = Ok s' -> Permutation (x :: s) s'.
Proof.
  revert s'. induction s as [|y s IH]; intros s'; cbn [sort_insert].
  - intros [= <-]. apply Permutation_refl.
  - destruct (key_lt y x) as [[] | e]; cbn [bind]; try discriminate.
    + destruct (sort_insert x s) as [r | e]; cbn [bind]; [| discriminate].
      intros [= <-]. eapply Permutation_trans; [apply perm_swap |].
      apply perm_skip. apply IH. reflexivity.
    + intros [= <-]. apply Permutation_refl.
Qed.

Lemma list_sort_perm (l s : list canonical) :
  list_sort l = Ok s -> Permutation l s.
Proof.
  revert s. induction l as [|x l IH]; intros s; cbn [list_sort].
  - intros [= <-]. apply Permutation_refl.
  - destruct (list_sort l) as [s0 | e]; cbn [bind]; [| discriminate].
    intros H. eapply Permutation_trans; [| exact (sort_insert_perm _ _ H)].
    apply perm_skip. apply IH. reflexivity.
Qed.

(** A sort that succeeds has compared objects of one kind only. *)
Lemma list_sort_kind (l s : list canonical) :
  list_sort l = Ok s ->
  forall a b, In a l -> In b l -> is_plain_date a = is_plain_date b.
Proof.
  revert s. induction l as [|x l IH]; intros s; cbn [list_sort];
    [intros _ a b [] |].
  destruct (list_sort l) as [s0 | e] eqn:Hs0; cbn [bind]; [| discriminate].
  intros Hins.
  assert (Hx : forall a, In a l -> is_plain_date a = is_plain_date x).
  { intros a Ha. destruct s0 as [|y s0].
    - apply (Permutation_in a (list_sort_perm _ Hs0)) in Ha. destruct Ha.
    - cbn [sort_insert] in Hins.
      destruct (key_lt y x) as [r | e] eqn:Hk; cbn [bind] in Hins;
        [| discriminate].
      rewrite <- (key_lt_ok_kind _ _ Hk).
      apply (IH _ eq_refl); [exact Ha |].
      apply (Permutation_in y (Permutation_sym (list_sort_perm _ Hs0))).
      left. reflexivity. }
  intros a b [<- | Ha] [<- | Hb].
  - reflexivity.
  - symmetry. apply Hx. exact Hb.
  - apply Hx. exact Ha.
  - apply (IH _ eq_refl); assumption.
Qed.

Lemma sort_insert_rank (x : canonical) (s : list canonical) :
  has_text_summary x = true ->
  (forall y, In y s ->
             is_plain_date y = is_plain_date x /\ has_text_summary y = true) ->
  sort_insert x s = Ok (rank_insert x s).
Proof.
  intros Hx. induction s as [|y s IH]; intros Hs; cbn [sort_insert rank_insert];
    [reflexivity |].
  destruct (Hs y (or_introl eq_refl)) as [Hk Ht].
  rewrite (key_lt_rank _ _ Hk Ht Hx). cbn [bind].
  destruct (rank_ltb (sort_rank y) (sort_rank x)); [| reflexivity].
  rewrite IH; [reflexivity |]. intros z Hz. apply Hs. right. exact Hz.
Qed.

Lemma list_sort_rank (l : list canonical) :
  (forall a b, In a l -> In b l -> is_plain_date a = is_plain_date b) ->
  (forall a, In a l -> has_text_summary a = true) ->
  list_sort l = Ok (rank_sort l).
Proof.
  induction l as [|x l IH]; intros Hk Ht; cbn [list_sort rank_sort];
    [reflexivity |].
  rewrite IH.
  - cbn [bind]. apply sort_insert_rank.
    + apply Ht. left. reflexivity.
    + intros y Hy.
      apply (Permutation_in y (Permutation_sym (rank_sort_perm l))) in Hy.
      split; [apply Hk | apply Ht]; try (right; exact Hy). left. reflexivity.
  - intros a b Ha Hb. apply Hk; right; assumption.
  - intros a Ha. apply Ht. right. exact Ha.
Qed.

Lemma event_lines_text (now : string) (c : canonical) (ls : list string) :
  event_lines now c = Ok ls -> has_text_summary c = true.
Proof.
  unfold event_lines, has_text_summary.
  destruct (dv_add_one_day (date_of c)); cbn [bind]; [| discriminate].
  destruct (summary c); cbn; try discriminate. reflexivity.
Qed.

Lemma mapM_ok_in {A B : Type} (f : A -> result B) (l : list A) (ys : list B) :
  mapM f l = Ok ys ->
  (forall x, In x l -> exists y, f x = Ok y /\ In y ys)
  /\ (forall y, In y ys -> exists x, In x l /\ f x = Ok y).
Proof.
  revert ys. induction l as [|x l IH]; intros ys; cbn [mapM].
  - intros [= <-]. split; intros ? [].
  - destruct (f x) as [y | e] eqn:Hx; cbn [bind]; [| discriminate].
    destruct (mapM f l) as [ys0 | e]; cbn [bind]; [| discriminate].
    intros [= <-]. destruct (IH _ eq_refl) as [IH1 IH2]. split.
    + intros x' [<- | Hin].
      * exists y. split; [exact Hx | left; reflexivity].
      * destruct (IH1 _ Hin) as (y' & Hy' & Hin'). exists y'.
        split; [exact Hy' | right; exact Hin'].
    + intros y' [<- | Hin].
      * exists x. split; [left; reflexivity | exact Hx].
      * destruct (IH2 _ Hin) as (x' & Hin' & Hx'). exists x'.
        split; [right; exact Hin' | exact Hx'].
Qed.

Lemma mapM_perm {A B : Type} (f : A -> result B) (l1 l2 : list A) :
  Permutation l1 l2 ->
  forall n1, mapM f l1 = Ok n1 ->
             exists n2, mapM f l2 = Ok n2 /\ Permutation n1 n2.
Proof.
  induction 1 as [| x l l' Hp IH | x y l | l l' l'' Hp1 IH1 Hp2 IH2];
    intros n1; cbn [mapM].
  - intros [= <-]. exists []. split; [reflexivity | apply Permutation_refl].
  - destruct (f x) as [b | e]; cbn [bind]; [| discriminate].
    destruct (mapM f l) as [n | e]; cbn [bind]; [| discriminate].
    intros [= <-]. destruct (IH _ eq_refl) as (n' & -> & Hn).
    exists (b :: n'). split; [reflexivity | apply perm_skip; exact Hn].
  - destruct (f y) as [b | e]; cbn [bind]; [| discriminate].
    destruct (f x) as [a | e]; cbn [bind]; [| discriminate].
    destruct (mapM f l) as [n | e]; cbn [bind]; [| discriminate].
    intros [= <-]. exists (a :: b :: n). split; [reflexivity | apply perm_swap].
  - intros H1. destruct (IH1 _ H1) as (n' & H' & Hn').
    destruct (IH2 _ H') as (n'' & H'' & Hn'').
    exists n''. split; [exact H'' | exact (Permutation_trans Hn' Hn'')].
Qed.

Lemma sort_rank_inj (a b : canonical) :
  is_plain_date a = is_plain_date b ->
  has_text_summary a = true -> has_text_summary b = true ->
  sort_rank a = sort_rank b ->
  date_of a = date_of b /\ summary a = summary b.
Proof.
  unfold is_plain_date, has_text_summary, sort_rank.
  destruct (summary a) as [| | | | s | | | |]; try discriminate.
  destruct (summary b) as [| | | | t | | | |]; try discriminate.
  destruct (date_of a) as [x | x u], (date_of b) as [y | y v];
    try discriminate; cbn [Spec.calendar_date]; intros _ _ _ H;
    injection H; intros; subst; split; reflexivity.
Qed.

(** C3, as the code has it. Take a list of records in which two records
    with the same date object and the same summary normalise to the same
    event. If serialising it succeeds, serialising any permutation of it with
    the same configuration and the same reading of the clock gives the same
    text: the normalised events are written in ascending order of the pair
    (date, summary), the date first and the summary, compared character by
    character, to break ties. *)
Theorem permutation_same_output
        (now : clock) (l1 l2 : list dict) (config : option CalendarConfig)
        (out : string) :
  let cfg := match config with Some c => c | None => default_config end in
  Permutation l1 l2 ->
  (forall e1 e2 c1 c2,
      In e1 l1 -> In e2 l1 ->
      _normalise_event e1 cfg = Ok c1 -> _normalise_event e2 cfg = Ok c2 ->
      date_of c1 = date_of c2 -> summary c1 = summary c2 -> c1 = c2) ->
  build_icalendar now l1 config = Ok out ->
  build_icalendar now l2 config = Ok out
  /\ exists (normalised sorted : list canonical) (blocks : list (list string)),
      mapM (fun event => _normalise_event event cfg) l1 = Ok normalised
      /\ Permutation normalised sorted
      /\ StronglySorted key_le sorted
      /\ mapM (event_lines (strftime_stamp now)) sorted = Ok blocks
      /\ out = Str.join CRLF (header_lines cfg ++ List.concat blocks
                                ++ ["END:VCALENDAR"])%list ++ CRLF.
Proof.
  intros cfg Hp Hk Hb. unfold build_icalendar in *. fold cfg in Hb |- *.
  destruct (mapM (fun event => _normalise_event event cfg) l1)
    as [n1 | e] eqn:Hn1; cbn [bind] in Hb; [| discriminate Hb].
  destruct (list_sort n1) as [s1 | e] eqn:Hs1; cbn [bind] in Hb;
    [| discriminate Hb].
  destruct (mapM (event_lines (strftime_stamp now)) s1)
    as [blocks | e] eqn:Hl; cbn [bind] in Hb; [| discriminate Hb].
  destruct (mapM_perm _ Hp Hn1) as (n2 & Hn2 & Hp12).
  pose proof (list_sort_perm _ Hs1) as Hps1.
  assert (Ht1 : forall c, In c n1 -> has_text_summary c = true).
  { intros c Hc. apply (Permutation_in c Hps1) in Hc.
    destruct (proj1 (mapM_ok_in _ _ Hl) c Hc) as (ls & Hls & _).
    exact (event_lines_text _ _ Hls). }
  pose proof (list_sort_kind _ Hs1) as Hk1.
  assert (Hr1 : s1 = rank_sort n1).
  { rewrite (list_sort_rank n1 Hk1 Ht1) in Hs1. injection Hs1 as <-. reflexivity. }
  assert (Hr2 : list_sort n2 = Ok (rank_sort n2)).
  { apply list_sort_rank.
    - intros a b Ha Hb'. apply Hk1;
        apply (Permutation_in _ (Permutation_sym Hp12)); assumption.
    - intros a Ha. apply Ht1.
      apply (Permutation_in _ (Permutation_sym Hp12)). exact Ha. }
  assert (Heq : rank_sort n1 = rank_sort n2).
  { apply sorted_perm_unique; try apply rank_sort_sorted.
    - eapply Permutation_trans; [apply Permutation_sym, rank_sort_perm |].
      eapply Permutation_trans; [exact Hp12 | apply rank_sort_perm].
    - intros a b Ha Hb' Hrank.
      apply (Permutation_in _ (Permutation_sym (rank_sort_perm n1))) in Ha, Hb'.
      destruct (sort_rank_inj (Hk1 a b Ha Hb') (Ht1 a Ha) (Ht1 b Hb') Hrank)
        as [Hd Hs].
      destruct (proj2 (mapM_ok_in _ _ Hn1) a Ha) as (ea & Hea & Hna).
      destruct (proj2 (mapM_ok_in _ _ Hn1) b Hb') as (eb & Heb & Hnb).
      exact (Hk ea eb a b Hea Heb Hna Hnb Hd Hs). }
  split.
  - rewrite Hn2. cbn [bind]. rewrite Hr2. cbn [bind].
    rewrite <- Heq, <- Hr1, Hl. cbn [bind]. exact Hb.
  - exists n1, s1, blocks. repeat split.
    + exact Hps1.
    + rewrite Hr1. apply rank_sort_sorted.
    + exact Hl.
    + injection Hb as <-. reflexivity.
Qed.

Lemma permutation_same_output_witness :
  Permutation [sample_easter; sample_new_year] [sample_new_year; sample_easter]
  /\ build_icalendar sample_clock [sample_easter; sample_new_year] None
     = build_icalendar sample_clock [sample_new_year; sample_easter] None.
Proof.
  assert (Hp : Permutation [sample_easter; sample_new_year]
                           [sample_new_year; sample_easter]) by apply perm_swap.
  split; [exact Hp |].
  destruct (build_icalendar sample_clock [sample_easter; sample_new_year] None)
    as [out | e] eqn:Hb; [| vm_compute in Hb; discriminate Hb].
  symmetry.
  refine (proj1 (@permutation_same_output sample_clock _ _ None _ Hp _ Hb)).
  intros e1 e2 c1 c2 [<- | [<- | []]] [<- | [<- | []]] H1 H2;
    vm_compute in H1, H2; injection H1 as <-; injection H2 as <-;
    intros Hd Hs; try reflexivity; discriminate.
Defined.

(** C3 as it is worded holds for every set of events; two different events
    of the same day with the same summary are written in the order they are
    given. *)
Lemma permutation_equal_keys_counterexample :
  match build_icalendar sample_clock [sample_vigil; sample_day] None,
        build_icalendar sample_clock [sample_day; sample_vigil] None with
  | Ok out1, Ok out2 => out1 <> out2
  | _, _ => False
  end.
Proof. vm_compute. discriminate. Qed.

(** * Further properties *)

(** ** Escaping *)

Lemma contains_append (c : ascii) (a b : string) :
  Str.contains c (a ++ b) = Str.contains c a || Str.contains c b.
Proof.
  induction a as [|x a IH]; cbn [append Str.contains]; [reflexivity |].
  rewrite IH. apply orb_assoc.
Qed.

Lemma escape_char_no_break (c : ascii) :
  Str.contains LF (Spec.escape_char c) = false
  /\ Str.contains CR (Spec.escape_char c) = false.
Proof. destruct c as [[] [] [] [] [] [] [] []]; split; reflexivity. Qed.

(** An escaped text has no line break: neither a newline nor a carriage
    return is left in it. *)
Theorem escape_text_no_line_break (s : string) :
  Str.contains LF (_escape_text s) = false
  /\ Str.contains CR (_escape_text s) = false.
Proof.
  induction s as [|c s [IHn IHr]]; [split; reflexivity |].
  rewrite escape_text_cons, !contains_append, IHn, IHr.
  destruct (escape_char_no_break c) as [-> ->]. split; reflexivity.
Qed.

Lemma unescape_escape_cons (c : ascii) (rest : string) :
  Ascii.eqb c CR = false ->
  unescape_text (Spec.escape_char c ++ rest) = String c (unescape_text rest).
Proof.
  destruct c as [[] [] [] [] [] [] [] []]; intros H;
    try discriminate H; reflexivity.
Qed.

Lemma unescape_escape (s : string) :
  Str.contains CR s = false -> unescape_text (_escape_text s) = s.
Proof.
  induction s as [|c s IH]; [reflexivity |].
  cbn [Str.contains]. intros H. apply orb_false_elim in H. destruct H as [Hc Hs].
  rewrite escape_text_cons, unescape_escape_cons by exact Hc.
  rewrite (IH Hs). reflexivity.
Qed.

(** Escaping loses nothing but carriage returns: two texts without carriage
    return that have the same escaped form are equal (the escaped form is
    read back by joining every backslash with the character after it). *)
Theorem escape_text_injective (s t : string) :
  Str.contains CR s = false -> Str.contains CR t = false ->
  _escape_text s = _escape_text t -> s = t.
Proof.
  intros Hs Ht H.
  rewrite <- (unescape_escape s Hs), <- (unescape_escape t Ht), H. reflexivity.
Qed.

Lemma escape_text_injective_witness :
  Str.contains CR "a\n,b" = false
  /\ _escape_text "a\n,b" = "a\\n\,b"
  /\ (_escape_text "a\n,b" = _escape_text "a\n,b" -> "a\n,b" = "a\n,b").
Proof.
  split; [reflexivity | split; [reflexivity |]].
  apply (@escape_text_injective "a\n,b" "a\n,b"); reflexivity.
Defined.

(** ** Slugs *)

Lemma runs_ok_sub_runs (b : bool) (s : string) :
  runs_ok b (Slug.sub_runs b s) = true.
Proof.
  revert b. induction s as [|c s IH]; intros b; cbn [Slug.sub_runs]; [reflexivity |].
  destruct (Slug.is_slug_char c) eqn:Hc.
  - cbn [runs_ok]. rewrite Hc. apply IH.
  - destruct b; [apply IH |].
    cbn [runs_ok]. change (Slug.is_slug_char "-") with false.
    cbn [Ascii.eqb Bool.eqb negb andb]. apply IH.
Qed.

Lemma runs_ok_lstrip (b b' : bool) (s : string) :
  runs_ok b s = true -> runs_ok b' (Slug.lstrip "-" s) = true.
Proof.
  revert b. induction s as [|c s IH]; intros b; cbn [Slug.lstrip]; [reflexivity |].
  destruct (Ascii.eqb_spec c "-") as [-> | Hc].
  - cbn [runs_ok]. change (Slug.is_slug_char "-") with false.
    intros H. apply andb_true_iff in H. destruct H as [_ H]. exact (IH true H).
  - cbn [runs_ok]. destruct (Slug.is_slug_char c); [auto |].
    destruct (Ascii.eqb_spec c "-"); [contradiction | discriminate].
Qed.

Lemma slug_tail_rstrip (b : bool) (s : string) :
  runs_ok b s = true ->
  Slug.rstrip "-" s = "" \/ slug_tail b (Slug.rstrip "-" s) = true.
Proof.
  revert b. induction s as [|c s IH]; intros b; [left; reflexivity |].
  cbn [runs_ok Slug.rstrip]. destruct (Slug.is_slug_char c) eqn:Hc.
  - intros H. right.
    destruct (Ascii.eqb_spec c "-") as [-> | Hne]; [discriminate Hc |].
    cbn [andb slug_tail]. rewrite Hc.
    destruct (IH false H) as [-> | Hs]; [reflexivity | exact Hs].
  - intros H. apply andb_true_iff in H. destruct H as [H Hr].
    apply andb_true_iff in H. destruct H as [He Hb].
    rewrite He. cbn [andb].
    destruct (IH true Hr) as [-> | Hs]; [left; reflexivity |].
    right. destruct (Slug.rstrip "-" s) as [|d r] eqn:Er;
      [discriminate Hs |].
    cbn [String.eqb slug_tail]. rewrite Hc, He, Hb. exact Hs.
Qed.

(** Whatever text it is given, [_slugify] returns a well-formed slug: not
    empty, made of the characters a to z, 0 to 9 and single hyphens, with no
    hyphen at the start or at the end. *)
Theorem slugify_well_formed (v : value) (s : string) :
  _slugify v = Ok s -> is_slug s = true.
Proof.
  unfold _slugify, is_slug. destruct (truthy v); cbn [negb];
    [| intros [= <-]; reflexivity].
  destruct (str_method "lower" v) as [t | e]; cbn [bind]; [| discriminate].
  intros [= <-].
  destruct (String.eqb_spec
              (Slug.strip "-" (Slug.sub_runs false (Slug.lower t))) "")
    as [_ | Hne]; [reflexivity |].
  unfold Slug.strip in *.
  destruct (slug_tail_rstrip true
              (Slug.lstrip "-" (Slug.sub_runs false (Slug.lower t))))
    as [He | Hs]; [| contradiction | exact Hs].
  exact (runs_ok_lstrip false true _ (runs_ok_sub_runs false _)).
Qed.

Lemma slugify_well_formed_witness :
  _slugify (VStr "Mary, Mother of God") = Ok "mary-mother-of-god"
  /\ is_slug "mary-mother-of-god" = true.
Proof.
  assert (H : _slugify (VStr "Mary, Mother of God") = Ok "mary-mother-of-god")
    by reflexivity.
  split; [exact H | exact (slugify_well_formed _ H)].
Defined.

Lemma slug_tail_runs_ok (b : bool) (s : string) :
  slug_tail b s = true -> runs_ok b s = true.
Proof.
  revert b. induction s as [|c s IH]; intros b; cbn [slug_tail runs_ok];
    [reflexivity |].
  destruct (Slug.is_slug_char c); [apply IH |].
  destruct (Ascii.eqb c "-"); [| discriminate].
  intros H. apply andb_true_iff in H. destruct H as [Hb Hs].
  rewrite Hb. cbn [andb]. exact (IH true Hs).
Qed.

Lemma slug_char_lower (c : ascii) :
  Slug.is_slug_char c = true \/ c = "-"%char -> Slug.lower_char c = c.
Proof.
  destruct c as [[] [] [] [] [] [] [] []]; intros [H | H];
    try discriminate H; reflexivity.
Qed.

Lemma runs_ok_lower (b : bool) (s : string) :
  runs_ok b s = true -> Slug.lower s = s.
Proof.
  revert b. induction s as [|c s IH]; intros b; cbn [runs_ok Slug.lower];
    [reflexivity |].
  destruct (Slug.is_slug_char c) eqn:Hc.
  - intros H. rewrite (IH false H), slug_char_lower by (left; exact Hc).
    reflexivity.
  - intros H. apply andb_true_iff in H. destruct H as [H Hr].
    apply andb_true_iff in H. destruct H as [He _].
    apply Ascii.eqb_eq in He. subst c.
    rewrite (IH true Hr). reflexivity.
Qed.

Lemma runs_ok_sub_runs_id (b : bool) (s : string) :
  runs_ok b s = true -> Slug.sub_runs b s = s.
Proof.
  revert b. induction s as [|c s IH]; intros b; cbn [runs_ok Slug.sub_runs];
    [reflexivity |].
  destruct (Slug.is_slug_char c) eqn:Hc.
  - intros H. rewrite (IH false H). reflexivity.
  - intros H. apply andb_true_iff in H. destruct H as [H Hr].
    apply andb_true_iff in H. destruct H as [He Hb].
    apply Ascii.eqb_eq in He. subst c.
    apply negb_true_iff in Hb. subst b. rewrite (IH true Hr). reflexivity.
Qed.

Lemma runs_ok_weaken (s : string) : runs_ok true s = true -> runs_ok false s = true.
Proof.
  destruct s as [|c s]; cbn [runs_ok]; [reflexivity |].
  destruct (Slug.is_slug_char c); [auto |].
  rewrite andb_false_r. discriminate.
Qed.

Lemma slug_tail_lstrip (s : string) :
  slug_tail true s = true -> Slug.lstrip "-" s = s.
Proof.
  destruct s as [|c s]; cbn [slug_tail Slug.lstrip]; [reflexivity |].
  destruct (Ascii.eqb_spec c "-") as [-> | Hc]; [| reflexivity].
  change (Slug.is_slug_char "-") with false. cbn. discriminate.
Qed.

Lemma slug_tail_rstrip_id (b : bool) (s : string) :
  slug_tail b s = true -> Slug.rstrip "-" s = s.
Proof.
  revert b. induction s as [|c s IH]; intros b; cbn [slug_tail Slug.rstrip];
    [reflexivity |].
  destruct (Slug.is_slug_char c) eqn:Hc.
  - intros H. rewrite (IH false H).
    destruct (Ascii.eqb_spec c "-") as [-> | Hne]; [discriminate Hc | reflexivity].
  - destruct (Ascii.eqb c "-"); [| discriminate].
    intros H. apply andb_true_iff in H. destruct H as [_ Hs].
    rewrite (IH true Hs). destruct s as [|d r]; [discriminate Hs | reflexivity].
Qed.

(** A slug is its own slug: [_slugify] applied to a text it has returned
    gives that text again. *)
Theorem slugify_idempotent (v : value) (s : string) :
  _slugify v = Ok s -> _slugify (VStr s) = Ok s.
Proof.
  intros H. apply slugify_well_formed in H. unfold is_slug in H.
  pose proof (slug_tail_runs_ok _ _ H) as Hr.
  unfold _slugify. destruct s as [|c s]; [discriminate H |].
  cbn [truthy String.eqb negb str_method bind].
  rewrite (runs_ok_lower _ _ Hr).
  rewrite (runs_ok_sub_runs_id _ _ (runs_ok_weaken _ Hr)).
  unfold Slug.strip. rewrite (slug_tail_lstrip _ H), (slug_tail_rstrip_id _ _ H).
  reflexivity.
Qed.

Lemma slugify_idempotent_witness :
  _slugify (VStr "Mary, Mother of God") = Ok "mary-mother-of-god"
  /\ _slugify (VStr "mary-mother-of-god") = Ok "mary-mother-of-god".
Proof.
  assert (H : _slugify (VStr "Mary, Mother of God") = Ok "mary-mother-of-god")
    by reflexivity.
  split; [exact H | exact (slugify_idempotent _ H)].
Defined.

(** ** Optional options of the command line *)

Lemma cli_lstrip_no_leading (s : string) : no_leading_space (Cli.lstrip s) = true.
Proof.
  induction s as [|c s IH]; cbn [Cli.lstrip]; [reflexivity |].
  destruct (Cli.is_space c) eqn:Hc; [exact IH |].
  cbn [no_leading_space]. rewrite Hc. reflexivity.
Qed.

Lemma cli_rstrip_no_trailing (s : string) : no_trailing_space (Cli.rstrip s) = true.
Proof.
  induction s as [|c s IH]; cbn [Cli.rstrip]; [reflexivity |].
  destruct (Cli.rstrip s) as [|d r] eqn:Er.
  - cbn [String.eqb]. rewrite andb_true_r.
    destruct (Cli.is_space c) eqn:Hc; [reflexivity |].
    cbn [no_trailing_space]. rewrite Hc. reflexivity.
  - cbn [String.eqb]. rewrite andb_false_r. exact IH.
Qed.

Lemma cli_rstrip_no_leading (s : string) :
  no_leading_space s = true -> no_leading_space (Cli.rstrip s) = true.
Proof.
  destruct s as [|c s]; cbn [Cli.rstrip no_leading_space]; [reflexivity |].
  intros Hc. destruct (Cli.is_space c && String.eqb (Cli.rstrip s) "");
    [reflexivity | exact Hc].
Qed.

Lemma cli_lstrip_id (s : string) : no_leading_space s = true -> Cli.lstrip s = s.
Proof.
  destruct s as [|c s]; cbn [Cli.lstrip no_leading_space]; [reflexivity |].
  intros Hc. apply negb_true_iff in Hc. rewrite Hc. reflexivity.
Qed.

Lemma cli_rstrip_id (s : string) : no_trailing_space s = true -> Cli.rstrip s = s.
Proof.
  induction s as [|c s IH]; [reflexivity |].
  cbn [Cli.rstrip]. destruct s as [|d r].
  - cbn [no_trailing_space Cli.rstrip String.eqb]. intros Hc.
    apply negb_true_iff in Hc. rewrite Hc. reflexivity.
  - intros H. change (no_trailing_space (String d r) = true) in H.
    rewrite (IH H). cbn [String.eqb]. rewrite andb_false_r. reflexivity.
Qed.

(** An optional option that is kept is kept stripped: the text
    [_normalise_optional] returns is not empty, has no white space at its
    start or its end, and is not the word none in any case of letters. *)
Theorem normalise_optional_stripped (value : option string) (r : string) :
  Cli._normalise_optional value = Some r ->
  r <> ""
  /\ no_leading_space r = true
  /\ no_trailing_space r = true
  /\ Slug.lower r <> "none".
Proof.
  unfold Cli._normalise_optional. destruct value as [v |]; [| discriminate].
  destruct (String.eqb_spec (Cli.rstrip (Cli.lstrip v)) "") as [| Hne];
    [discriminate |].
  destruct (String.eqb_spec (Slug.lower (Cli.rstrip (Cli.lstrip v))) "none")
    as [| Hn]; [discriminate |].
  intros [= <-]. repeat split.
  - exact Hne.
  - apply cli_rstrip_no_leading, cli_lstrip_no_leading.
  - apply cli_rstrip_no_trailing.
  - exact Hn.
Qed.

Lemma normalise_optional_stripped_witness :
  Cli._normalise_optional (Some "  PUBLISH ") = Some "PUBLISH"
  /\ no_leading_space "PUBLISH" = true.
Proof.
  assert (H : Cli._normalise_optional (Some "  PUBLISH ") = Some "PUBLISH")
    by reflexivity.
  split; [exact H | exact (proj1 (proj2 (normalise_optional_stripped _ H)))].
Defined.

(** Normalising an optional option twice is normalising it once. *)
Theorem normalise_optional_idempotent (value : option string) :
  Cli._normalise_optional (Cli._normalise_optional value)
  = Cli._normalise_optional value.
Proof.
  destruct (Cli._normalise_optional value) as [r |] eqn:H; [| reflexivity].
  destruct (normalise_optional_stripped _ H) as (Hne & Hl & Ht & Hn).
  unfold Cli._normalise_optional.
  rewrite (cli_lstrip_id _ Hl), (cli_rstrip_id _ Ht).
  destruct (String.eqb_spec r "") as [| _]; [contradiction |].
  destruct (String.eqb_spec (Slug.lower r) "none") as [| _]; [contradiction |].
  reflexivity.
Qed.

(** ** Stringification of JSON values *)

Lemma mapM_if_ok {A B : Type} (p : A -> bool) (f : A -> result B) (l : list A) :
  (forall x, In x l -> p x = true -> exists y, f x = Ok y) ->
  exists ys, mapM_if p f l = Ok ys.
Proof.
  induction l as [|x l IH]; intros H; cbn [mapM_if]; [eexists; reflexivity |].
  destruct IH as (ys & Hys); [intros z Hz; apply H; right; exact Hz |].
  rewrite Hys. destruct (p x) eqn:Hp; [| eexists; reflexivity].
  destruct (H x (or_introl eq_refl) Hp) as (y & ->). cbn [bind].
  eexists. reflexivity.
Qed.

Lemma stringify_json_like (v : value) :
  json_like v = true -> exists s, _stringify v = Ok s.
Proof.
  induction v as [| b | z | x | s | elems IH | items IH | d | d t]
    using value_ind_nested; cbn [json_like]; intros Hj;
    try discriminate Hj; try (eexists; reflexivity).
  - cbn [_stringify]. rewrite forallb_forall in Hj. rewrite Forall_forall in IH.
    destruct (mapM_if_ok (fun elem => negb (is_none elem)) _stringify elems)
      as (parts & ->); [| eexists; reflexivity].
    intros x Hx _. exact (IH x Hx (Hj x Hx)).
  - cbn [_stringify]. rewrite forallb_forall in Hj. rewrite Forall_forall in IH.
    match goal with |- exists s, bind (mapM_if ?p ?f items) _ = _ =>
      destruct (mapM_if_ok p f items) as (parts & ->); [| eexists; reflexivity]
    end.
    intros [k x] Hx _. destruct (IH (k, x) Hx (Hj (k, x) Hx)) as (t & Ht).
    cbn [snd] in Ht. rewrite Ht. eexists. reflexivity.
Qed.

(** [_stringify] returns a text for every value as JSON has it (null,
    booleans, integers, strings, lists and mappings of such values); when it
    raises, the exception is a [TypeError] and the value holds a date or
    datetime object. *)
Theorem stringify_total_on_json (v : value) :
  (json_like v = true -> exists s, _stringify v = Ok s)
  /\ (forall e, _stringify v = Error e ->
                json_like v = false /\ exn_cls e = TypeError).
Proof.
  split; [apply stringify_json_like |].
  intros e He. split.
  - destruct (json_like v) eqn:Hj; [| reflexivity].
    destruct (stringify_json_like v Hj) as (s & Hs). congruence.
  - destruct (stringify_error _ He) as (m & ->). reflexivity.
Qed.

Lemma stringify_total_on_json_witness :
  json_like (VDict [("source", VStr "General Roman Calendar");
                    ("colors", VList [VStr "white"; VNone])]) = true
  /\ exists s,
      _stringify (VDict [("source", VStr "General Roman Calendar");
                         ("colors", VList [VStr "white"; VNone])]) = Ok s.
Proof.
  split; [reflexivity |].
  apply (proj1 (stringify_total_on_json _)). reflexivity.
Defined.

(** ** Categories and records of JSON values *)

Lemma normalise_event_categories
      (event : dict) (cfg : CalendarConfig) (c : canonical) :
  _normalise_event event cfg = Ok c ->
  match event_category event with
  | VStr _ => Ok [event_category event]
  | _ => py_list (event_category event)
  end = Ok (categories c).
Proof.
  unfold _normalise_event. intros H. inv_bind H.
  injection H as <-. cbn [categories]. exact E4.
Qed.

(** A normalised record has at least one category: the category value is a
    non-empty string, which is the only category, or a non-empty list, whose
    elements are the categories, or a non-empty mapping, whose keys are.
    (Any other category value, a number or a boolean, makes normalisation
    fail.) *)
Theorem categories_shape (event : dict) (cfg : CalendarConfig) (c : canonical) :
  _normalise_event event cfg = Ok c ->
  categories c <> []
  /\ ((exists s, event_category event = VStr s /\ s <> ""
                 /\ categories c = [VStr s])
      \/ (exists elems, event_category event = VList elems
                        /\ categories c = elems)
      \/ (exists items, event_category event = VDict items
                        /\ categories c
                           = map (fun kv : string * value => VStr (fst kv)) items)).
Proof.
  intros H. apply normalise_event_categories in H.
  assert (Ht : truthy (event_category event) = true)
    by (unfold event_category; now apply truthy_or).
  destruct (event_category event) as [| b | z | x | s | elems | items | d | d t];
    cbn [py_list] in H; try discriminate H; injection H as <-.
  - split; [discriminate |]. left. exists s. repeat split.
    intros ->. discriminate Ht.
  - split; [destruct elems; [discriminate Ht | discriminate] |].
    right. left. exists elems. split; reflexivity.
  - split; [destruct items; [discriminate Ht | discriminate] |].
    right. right. exists items. split; reflexivity.
Qed.

Lemma categories_shape_witness :
  _normalise_event sample_easter default_config = Ok sample_easter_canonical
  /\ categories sample_easter_canonical <> [].
Proof.
  assert (H : _normalise_event sample_easter default_config
              = Ok sample_easter_canonical) by (vm_compute; reflexivity).
  split; [exact H | exact (proj1 (categories_shape _ _ H))].
Defined.

Lemma json_like_or (a b : value) :
  json_like a = true -> json_like b = true -> json_like (a or' b) = true.
Proof. unfold py_or. destruct (truthy a); auto. Qed.

Lemma description_loop_total (pairs : list (string * value)) :
  Forall (fun p => json_like (snd p) = true) pairs ->
  exists lines, description_loop pairs = Ok lines.
Proof.
  induction 1 as [|[label v] pairs Hv _ IH]; cbn [description_loop];
    [eexists; reflexivity |].
  destruct IH as (lines & ->). destruct (is_none v); [eexists; reflexivity |].
  destruct (stringify_json_like v Hv) as (s & ->). cbn [bind].
  eexists. reflexivity.
Qed.

Lemma slugify_text (s : string) : exists r, _slugify (VStr s) = Ok r.
Proof.
  unfold _slugify. destruct (truthy (VStr s)); cbn [negb str_method bind];
    eexists; reflexivity.
Qed.

Ltac stage_ok :=
  match goal with
  | |- exists c, bind ?m _ = _ /\ _ =>
      let H := fresh "Hstage" in
      let x := fresh "x" in
      assert (H : exists x, m = Ok x);
      [| destruct H as (x & ->); cbn [bind]]
  end.

(** Normalisation succeeds on every record of JSON values whose date entry
    can be read, whose summary is a string and whose category is not a
    number or a boolean: apart from the date entry, no value of such a record
    can make it fail. *)
Theorem normalise_total_on_json
        (event : dict) (cfg : CalendarConfig) (dv : date_value) :
  (forall key, key <> "date" -> key <> "start" ->
               json_like (dict_get key event) = true) ->
  event_date event = Ok dv ->
  (exists s, event_summary event = VStr s) ->
  as_number (event_category event) = None ->
  exists c, _normalise_event event cfg = Ok c
            /\ date_of c = dv /\ summary c = event_summary event.
Proof.
  intros Hj Hd (s & Hs) Hc.
  assert (Hget : forall key, key <> "date" -> key <> "start" ->
                             exists t, _stringify (dict_get key event) = Ok t)
    by (intros key H1 H2; apply stringify_json_like, Hj; assumption).
  unfold _normalise_event.
  match goal with
  | |- exists c, bind ?m _ = _ /\ _ => replace m with (Ok dv : result date_value)
  end.
  2:{ rewrite <- Hd. unfold event_date, Spec.date_entry.
      destruct (dict_contains "date" event); [reflexivity |].
      destruct (dict_contains "start" event); reflexivity. }
  cbn [bind].
  stage_ok.
  { destruct (truthy _); [eexists; reflexivity |].
    destruct (truthy (dict_get "slug" event)); cbn [bind];
      [eexists; reflexivity |].
    unfold event_summary in Hs. rewrite Hs.
    destruct (slugify_text s) as (r & ->). cbn [bind]. eexists. reflexivity. }
  stage_ok.
  { destruct (truthy _); [| eexists; reflexivity].
    match goal with |- exists x, bind (_stringify ?v) _ = _ =>
      destruct (stringify_json_like v) as (t & ->);
        [apply json_like_or; apply Hj; discriminate
        | cbn [bind]; eexists; reflexivity]
    end. }
  stage_ok.
  { destruct (truthy _); [| eexists; reflexivity].
    match goal with |- exists x, bind (_stringify ?v) _ = _ =>
      destruct (stringify_json_like v) as (t & ->);
        [apply json_like_or; apply Hj; discriminate
        | cbn [bind]; eexists; reflexivity]
    end. }
  stage_ok.
  { apply description_loop_total.
    destruct (truthy _);
      repeat (apply Forall_cons || apply Forall_nil || apply Forall_app
              || split);
      cbn [snd]; try (apply json_like_or); apply Hj; discriminate. }
  stage_ok.
  { assert (Hcat : json_like (event_category event) = true).
    { unfold event_category. repeat apply json_like_or;
        try (apply Hj; discriminate). reflexivity. }
    assert (Ht : truthy (event_category event) = true)
      by (unfold event_category; apply truthy_or; reflexivity).
    unfold event_category in Hc, Hcat, Ht.
    match goal with |- exists x, match ?v with _ => _ end = _ =>
      destruct v; cbn [py_list]; try discriminate;
        eexists; reflexivity
    end. }
  eexists. split; [reflexivity | split; reflexivity].
Qed.

Lemma normalise_total_on_json_witness :
  exists c, _normalise_event sample_new_year default_config = Ok c
            /\ date_of c = DDate (Date 2025 1 1)
            /\ summary c = event_summary sample_new_year.
Proof.
  apply normalise_total_on_json.
  - intros key H1 H2. unfold sample_new_year. cbn [dict_get].
    repeat match goal with
           | |- context [String.eqb ?a ?b] => destruct (String.eqb a b)
           end; reflexivity.
  - reflexivity.
  - eexists. reflexivity.
  - reflexivity.
Defined.

(** ** Event blocks and the feed *)

Lemma fold_line_bounded (line : string) :
  Forall (fun fragment => (String.length fragment <= 75)%nat) (_fold_line line).
Proof.
  unfold _fold_line, _MAX_LINE_LENGTH.
  destruct (Nat.leb (String.length line) 75) eqn:Hle.
  - apply Nat.leb_le in Hle. constructor; [exact Hle | constructor].
  - constructor; [rewrite take_length; lia |].
    destruct (fold_loop_chunks (Str.drop 75 line)) as (chunks & -> & Hlen & _).
    apply Forall_map. eapply Forall_impl; [| exact Hlen].
    intros c Hc. cbv beta in *. cbn [String.length append]. lia.
Qed.

Lemma Forall_flat_map {A B : Type} (P : B -> Prop) (f : A -> list B) (l : list A) :
  (forall x, In x l -> Forall P (f x)) -> Forall P (flat_map f l).
Proof.
  induction l as [|x l IH]; intros H; cbn [flat_map]; [constructor |].
  apply Forall_app. split; [apply H; left; reflexivity |].
  apply IH. intros y Hy. apply H. right. exact Hy.
Qed.

(** The block written for an event opens with BEGIN:VEVENT, closes with
    END:VEVENT, and none of its lines has more than 75 characters, whatever
    the length of the identifier, summary, description or categories. *)
Theorem event_lines_well_formed (now : string) (c : canonical) (ls : list string) :
  event_lines now c = Ok ls -> well_formed_block ls.
Proof.
  unfold event_lines.
  destruct (dv_add_one_day (date_of c)) as [next | e]; cbn [bind]; [| discriminate].
  destruct (str_method "replace" (summary c)) as [text | e]; cbn [bind];
    [| discriminate].
  intros [= <-]. unfold well_formed_block, _format_ics_line. split; [reflexivity |].
  split.
  - rewrite !app_assoc. cbn [app]. rewrite app_comm_cons. apply last_last.
  - cbn [app]. constructor; [cbn; lia |].
    repeat (apply Forall_app; split); try apply fold_line_bounded.
    + destruct (negb _); [apply fold_line_bounded | constructor].
    + apply Forall_flat_map. intros x _. apply fold_line_bounded.
    + constructor; [cbn; lia | constructor].
Qed.

Lemma event_lines_well_formed_witness :
  exists ls, event_lines (strftime_stamp sample_clock) sample_easter_canonical
             = Ok ls
             /\ well_formed_block ls.
Proof.
  destruct (event_lines (strftime_stamp sample_clock) sample_easter_canonical)
    as [ls | e] eqn:H; [| vm_compute in H; discriminate H].
  exists ls. split; [reflexivity | exact (event_lines_well_formed _ _ H)].
Defined.

Lemma mapM_length {A B : Type} (f : A -> result B) (l : list A) (ys : list B) :
  mapM f l = Ok ys -> List.length ys = List.length l.
Proof.
  revert ys. induction l as [|x l IH]; intros ys; cbn [mapM].
  - intros [= <-]. reflexivity.
  - destruct (f x); cbn [bind]; [| discriminate].
    destruct (mapM f l) as [ys0 |]; cbn [bind]; [| discriminate].
    intros [= <-]. cbn [List.length]. rewrite (IH _ eq_refl). reflexivity.
Qed.

(** *** Physical lines *)

Lemma physical_lines_step (c d : ascii) (s : string) :
  physical_lines (String c (String d s))
  = if Ascii.eqb c CR && Ascii.eqb d LF then "" :: physical_lines s
    else match physical_lines (String d s) with
         | [] => [String c ""]
         | line :: rest => String c line :: rest
         end.
Proof. reflexivity. Qed.

(** A line without line feed, written with its terminator, is the first
    physical line of the text. *)
Lemma physical_lines_cons (line rest : string) :
  Str.contains LF line = false ->
  physical_lines (line ++ CRLF ++ rest) = line :: physical_lines rest.
Proof.
  induction line as [|c line IH]; intros H; [reflexivity |].
  cbn [Str.contains] in H. apply orb_false_iff in H. destruct H as [Hc Hl].
  specialize (IH Hl). destruct line as [|d line].
  - cbn [append] in *. unfold CRLF in *. cbn [append] in *.
    rewrite physical_lines_step, IH.
    change (Ascii.eqb CR LF) with false. rewrite andb_false_r. reflexivity.
  - cbn [append] in *. rewrite physical_lines_step, IH.
    cbn [Str.contains] in Hl. apply orb_false_iff in Hl. destruct Hl as [Hd _].
    rewrite Hd, andb_false_r. reflexivity.
Qed.

Lemma physical_lines_terminated (lines : list string) :
  Forall (fun line => Str.contains LF line = false) lines ->
  physical_lines (Spec.crlf_terminated lines) = (lines ++ [""])%list.
Proof.
  induction 1 as [|line lines Hl _ IH]; [reflexivity |].
  cbn [Spec.crlf_terminated fold_right app].
  rewrite physical_lines_cons by exact Hl. f_equal. exact IH.
Qed.

(** *** Texts without line feed *)

Lemma escape_text_no_lf (s : string) : Str.contains LF (_escape_text s) = false.
Proof.
  induction s as [|c s IH]; [reflexivity |].
  rewrite escape_text_cons, contains_append, IH.
  destruct (escape_char_no_break c) as [-> _]. reflexivity.
Qed.

Lemma string_of_uint_no_lf (d : Decimal.uint) :
  Str.contains LF (NilEmpty.string_of_uint d) = false.
Proof. induction d; cbn [NilEmpty.string_of_uint Str.contains]; auto. Qed.

Lemma str_of_Z_no_lf (z : Z) : Str.contains LF (str_of_Z z) = false.
Proof.
  unfold str_of_Z, NilEmpty.string_of_int.
  destruct (Z.to_int z); cbn [Str.contains]; apply string_of_uint_no_lf.
Qed.

Lemma zfill_no_lf (w : nat) (z : Z) : Str.contains LF (zfill w z) = false.
Proof.
  unfold zfill. cbv zeta. rewrite contains_append, str_of_Z_no_lf, orb_false_r.
  generalize (w - String.length (str_of_Z z))%nat. intros n.
  induction n as [|n IH]; [reflexivity | exact IH].
Qed.

Lemma strftime_Ymd_no_lf (d : date) : Str.contains LF (Dt.strftime_Ymd d) = false.
Proof.
  unfold Dt.strftime_Ymd. now rewrite !contains_append, !zfill_no_lf.
Qed.

Lemma strftime_stamp_no_lf (now : clock) :
  Str.contains LF (strftime_stamp now) = false.
Proof.
  unfold strftime_stamp, Dt.strftime_HMS.
  now rewrite !contains_append, strftime_Ymd_no_lf, !zfill_no_lf.
Qed.

Lemma take_no_lf (n : nat) (s : string) :
  Str.contains LF s = false -> Str.contains LF (Str.take n s) = false.
Proof.
  intros H. rewrite <- (take_drop n s), contains_append in H.
  apply orb_false_iff in H. tauto.
Qed.

Lemma drop_no_lf (n : nat) (s : string) :
  Str.contains LF s = false -> Str.contains LF (Str.drop n s) = false.
Proof.
  intros H. rewrite <- (take_drop n s), contains_append in H.
  apply orb_false_iff in H. tauto.
Qed.

Lemma concat_no_lf (chunks : list string) :
  Str.contains LF (String.concat "" chunks) = false ->
  Forall (fun c => Str.contains LF c = false) chunks.
Proof.
  induction chunks as [|c chunks IH]; intros H; constructor;
    rewrite concat_cons_empty, contains_append in H;
    apply orb_false_iff in H; [tauto | apply IH; tauto].
Qed.

(** *** Fragments of a folded line *)

(** The fragments a line gives when it has no line feed and starts with a
    character other than the first letters of the two markers. *)
Lemma fold_line_content (c : ascii) (rest : string) :
  Ascii.eqb c "B" = false -> Ascii.eqb c "E" = false ->
  Str.contains LF (String c rest) = false ->
  Forall content_line (_fold_line (String c rest)).
Proof.
  intros HB HE Hlf.
  assert (Hhead : forall t : string,
             String c t <> "BEGIN:VEVENT" /\ String c t <> "END:VEVENT").
  { intros t. split; intros [= -> _]; discriminate. }
  unfold _fold_line, _MAX_LINE_LENGTH.
  destruct (Nat.leb (String.length (String c rest)) 75) eqn:Hle.
  - apply Nat.leb_le in Hle. constructor; [| constructor].
    destruct (Hhead rest). repeat split; assumption.
  - constructor.
    + pose proof (take_no_lf 75 _ Hlf) as Ht.
      pose proof (take_length 75 (String c rest)) as Hl.
      change (Str.take 75 (String c rest)) with (String c (Str.take 74 rest)) in *.
      destruct (Hhead (Str.take 74 rest)). repeat split; try assumption.
      rewrite Hl. lia.
    + destruct (fold_loop_chunks (Str.drop 75 (String c rest)))
        as (chunks & Heq & Hlen & Hcat).
      rewrite Heq.
      assert (Hch : Forall (fun ch => Str.contains LF ch = false) chunks).
      { apply concat_no_lf. rewrite Hcat. apply drop_no_lf. exact Hlf. }
      clear Heq Hcat. induction chunks as [|ch chunks IH]; [constructor |].
      cbn [map]. inversion Hlen; subst. inversion Hch; subst.
      constructor; [| apply IH; assumption].
      repeat split; try discriminate.
      * rewrite contains_append. change (Str.contains LF " ") with false.
        cbn [orb]. assumption.
      * rewrite length_append. cbn [String.length]. lia.
Qed.

Lemma format_line_content (c : ascii) (key value : string) :
  Ascii.eqb c "B" = false -> Ascii.eqb c "E" = false ->
  Str.contains LF (String c key) = false ->
  Str.contains LF value = false ->
  Forall content_line (_format_ics_line (String c key) value).
Proof.
  intros HB HE Hk Hv. unfold _format_ics_line.
  change (String c key ++ ":" ++ value) with (String c (key ++ ":" ++ value)).
  apply fold_line_content; try assumption.
  cbn [Str.contains] in *. apply orb_false_iff in Hk. destruct Hk as [-> Hk].
  rewrite !contains_append, Hk, Hv. reflexivity.
Qed.

(** The block of an event whose identifier has no line feed, written with
    a time stamp that has none. *)
Lemma event_lines_delimited (now : string) (c : canonical) (ls : list string) :
  Str.contains LF now = false ->
  Str.contains LF (uid c) = false ->
  event_lines now c = Ok ls -> delimited_block ls.
Proof.
  intros Hnow Huid. unfold event_lines.
  destruct (dv_add_one_day (date_of c)) as [next | e]; cbn [bind]; [| discriminate].
  destruct (str_method "replace" (summary c)) as [text | e]; cbn [bind];
    [| discriminate].
  intros [= <-]. cbn [app].
  exists (_format_ics_line "UID" (uid c)
            ++ _format_ics_line "DTSTAMP" now
            ++ _format_ics_line "DTSTART;VALUE=DATE" (dv_strftime_Ymd (date_of c))
            ++ _format_ics_line "DTEND;VALUE=DATE" (dv_strftime_Ymd next)
            ++ _format_ics_line "SUMMARY" (_escape_text text)
            ++ (if negb (String.eqb (description c) "")
                then _format_ics_line "DESCRIPTION"
                                      (_escape_text (description c))
                else [])
            ++ flat_map (fun category =>
                           _format_ics_line "CATEGORIES"
                                            (_escape_text (py_str category)))
                        (categories c))%list.
  split; [f_equal; rewrite <- !app_assoc; reflexivity |].
  assert (Hymd : forall dv, Str.contains LF (dv_strftime_Ymd dv) = false)
    by (intros [d | d t]; apply strftime_Ymd_no_lf).
  repeat (apply Forall_app; split);
    try (apply format_line_content;
         first [reflexivity | assumption | apply escape_text_no_lf | apply Hymd]).
  - destruct (negb _); [| constructor].
    apply format_line_content; first [reflexivity | apply escape_text_no_lf].
  - apply Forall_flat_map. intros x _.
    apply format_line_content; first [reflexivity | apply escape_text_no_lf].
Qed.

Lemma mapM_forall_in {A B : Type} (f : A -> result B) (P : B -> Prop)
      (l : list A) (ys : list B) :
  (forall x y, In x l -> f x = Ok y -> P y) -> mapM f l = Ok ys -> Forall P ys.
Proof.
  intros Hf H. apply Forall_forall. intros y Hy.
  destruct (proj2 (mapM_ok_in _ _ H) y Hy) as (x & Hx & Hfx). exact (Hf x y Hx Hfx).
Qed.

Lemma delimited_block_no_lf (block : list string) :
  delimited_block block ->
  Forall (fun line => Str.contains LF line = false) block.
Proof.
  intros (inner & -> & Hin). constructor; [reflexivity |].
  apply Forall_app. split.
  - eapply Forall_impl; [| exact Hin]. intros line (H & _). exact H.
  - constructor; [reflexivity | constructor].
Qed.

(** The feed as its physical lines. When neither the product id nor the
    identifier of a record holds a line feed, the text of a feed that is
    produced, cut at the terminators CR LF, is the six header lines, then
    one block for every record it was given, then the end marker (and
    nothing after the last terminator). A block is the marker BEGIN:VEVENT,
    lines of at most 75 characters that are neither of the two markers, and
    the marker END:VEVENT; so the text has exactly as many blocks as there
    were records. *)
Theorem build_icalendar_structure
        (now : clock) (events : list dict) (config : option CalendarConfig)
        (out : string) :
  let cfg := match config with Some c => c | None => default_config end in
  Str.contains LF (prodid cfg) = false ->
  (forall event c, In event events -> _normalise_event event cfg = Ok c ->
                   Str.contains LF (uid c) = false) ->
  build_icalendar now events config = Ok out ->
  exists blocks : list (list string),
    List.length blocks = List.length events
    /\ Forall delimited_block blocks
    /\ physical_lines out
       = (header_lines cfg ++ List.concat blocks ++ ["END:VCALENDAR"; ""])%list.
Proof.
  intros cfg Hprod Huid. unfold build_icalendar. fold cfg.
  destruct (mapM (fun event => _normalise_event event cfg) events)
    as [n | e] eqn:Hn; cbn [bind]; [| discriminate].
  destruct (list_sort n) as [s | e] eqn:Hs; cbn [bind]; [| discriminate].
  destruct (mapM (event_lines (strftime_stamp now)) s)
    as [blocks | e] eqn:Hb; cbn [bind]; [| discriminate].
  intros Hout. exists blocks.
  assert (Hblocks : Forall delimited_block blocks).
  { eapply mapM_forall_in; [| exact Hb].
    intros c ls Hc. apply event_lines_delimited; [apply strftime_stamp_no_lf |].
    apply (Permutation_in c (Permutation_sym (list_sort_perm _ Hs))) in Hc.
    destruct (proj2 (mapM_ok_in _ _ Hn) c Hc) as (event & Hin & Hev).
    exact (Huid event c Hin Hev). }
  split; [| split; [exact Hblocks |]].
  - rewrite (mapM_length _ _ Hb).
    rewrite <- (Permutation_length (list_sort_perm _ Hs)).
    exact (mapM_length _ _ Hn).
  - assert (Heq : out = Spec.crlf_terminated
                    (header_lines cfg ++ List.concat blocks ++ ["END:VCALENDAR"])%list).
    { rewrite <- join_crlf_terminated by (unfold header_lines; discriminate).
      congruence. }
    rewrite Heq, physical_lines_terminated.
    + rewrite <- !app_assoc. reflexivity.
    + apply Forall_app. split.
      * unfold header_lines.
        repeat constructor;
          rewrite ?contains_append, ?escape_text_no_lf, ?Hprod; reflexivity.
      * apply Forall_app. split; [| repeat constructor].
        apply Forall_concat. eapply Forall_impl; [| exact Hblocks].
        intros block. apply delimited_block_no_lf.
Qed.

Lemma build_icalendar_structure_witness :
  exists out blocks,
    build_icalendar sample_clock [sample_easter; sample_new_year] None = Ok out
    /\ List.length blocks = 2%nat
    /\ Forall delimited_block blocks
    /\ physical_lines out
       = (header_lines default_config ++ List.concat blocks
            ++ ["END:VCALENDAR"; ""])%list.
Proof.
  destruct (build_icalendar sample_clock [sample_easter; sample_new_year] None)
    as [out | e] eqn:H; [| vm_compute in H; discriminate H].
  assert (Hp : Str.contains LF (prodid default_config) = false) by reflexivity.
  assert (Hu : forall event c,
             In event [sample_easter; sample_new_year] ->
             _normalise_event event default_config = Ok c ->
             Str.contains LF (uid c) = false).
  { intros event c [<- | [<- | []]] Hc; vm_compute in Hc; injection Hc as <-;
      reflexivity. }
  destruct (@build_icalendar_structure sample_clock
              [sample_easter; sample_new_year] None out Hp Hu H)
    as (blocks & Hl & Hw & Hlines).
  exists out, blocks.
  split; [reflexivity | split; [exact Hl | split; [exact Hw | exact Hlines]]].
Defined.

(** ** Order of the entries *)

Lemma with_rank_spec (k : (date * time) * string) (c : canonical) (l : list canonical) :
  In c (with_rank k l) -> sort_rank c = k.
Proof.
  unfold with_rank. intros H. apply filter_In in H. destruct H as [_ H].
  apply andb_true_iff in H. destruct H as [Hm Hs].
  apply moment_eqb_eq in Hm. apply String.eqb_eq in Hs.
  destruct (sort_rank c), k. cbn [fst snd] in *. subst. reflexivity.
Qed.

Lemma with_rank_insert (k : (date * time) * string) (x : canonical)
      (l : list canonical) :
  with_rank k (rank_insert x l) = with_rank k (x :: l).
Proof.
  induction l as [|y l IH]; cbn [rank_insert]; [reflexivity |].
  destruct (rank_ltb (sort_rank y) (sort_rank x)) eqn:Hlt; [| reflexivity].
  unfold with_rank in *. cbn [filter] in *. rewrite IH.
  destruct (moment_eqb (fst (sort_rank x)) (fst k)
            && String.eqb (snd (sort_rank x)) (snd k)) eqn:Hx;
    [| reflexivity].
  destruct (moment_eqb (fst (sort_rank y)) (fst k)
            && String.eqb (snd (sort_rank y)) (snd k)) eqn:Hy;
    [| reflexivity].
  exfalso.
  assert (Hkx : sort_rank x = k)
    by (apply (with_rank_spec k x [x]); unfold with_rank; cbn [filter];
        rewrite Hx; left; reflexivity).
  assert (Hky : sort_rank y = k)
    by (apply (with_rank_spec k y [y]); unfold with_rank; cbn [filter];
        rewrite Hy; left; reflexivity).
  rewrite Hkx, Hky, (st_irrefl rank_ltb_strict) in Hlt. discriminate Hlt.
Qed.

Lemma with_rank_sort (k : (date * time) * string) (l : list canonical) :
  with_rank k (rank_sort l) = with_rank k l.
Proof.
  induction l as [|x l IH]; cbn [rank_sort]; [reflexivity |].
  rewrite with_rank_insert. unfold with_rank in *. cbn [filter].
  rewrite IH. reflexivity.
Qed.

(** In a feed that is produced the entries are written in ascending order
    of date and summary, and the sort is stable: the text is the header,
    then the block of each normalised record in the sorted order, then the
    end marker, and the records that have the same date and the same summary
    come in the order in which they were given. *)
Theorem build_icalendar_sorted_stable
        (now : clock) (events : list dict) (config : option CalendarConfig)
        (out : string) :
  let cfg := match config with Some c => c | None => default_config end in
  build_icalendar now events config = Ok out ->
  exists (normalised sorted : list canonical) (blocks : list (list string)),
    mapM (fun event => _normalise_event event cfg) events = Ok normalised
    /\ list_sort normalised = Ok sorted
    /\ Permutation normalised sorted
    /\ StronglySorted key_le sorted
    /\ (forall k, with_rank k sorted = with_rank k normalised)
    /\ mapM (event_lines (strftime_stamp now)) sorted = Ok blocks
    /\ out = Spec.crlf_terminated
               (header_lines cfg ++ List.concat blocks ++ ["END:VCALENDAR"])%list.
Proof.
  intros cfg. unfold build_icalendar. fold cfg.
  destruct (mapM (fun event => _normalise_event event cfg) events)
    as [n | e] eqn:Hn; cbn [bind]; [| discriminate].
  destruct (list_sort n) as [s | e] eqn:Hs; cbn [bind]; [| discriminate].
  destruct (mapM (event_lines (strftime_stamp now)) s)
    as [blocks | e] eqn:Hb; cbn [bind]; [| discriminate].
  intros Hout. exists n, s, blocks.
  pose proof (list_sort_perm _ Hs) as Hp.
  assert (Ht : forall c, In c n -> has_text_summary c = true).
  { intros c Hc. apply (Permutation_in c Hp) in Hc.
    destruct (proj1 (mapM_ok_in _ _ Hb) c Hc) as (ls & Hls & _).
    exact (event_lines_text _ _ Hls). }
  assert (Hr : s = rank_sort n).
  { rewrite (list_sort_rank n (list_sort_kind _ Hs) Ht) in Hs.
    injection Hs as <-. reflexivity. }
  split; [reflexivity |]. split; [exact Hs |]. split; [exact Hp |].
  split; [rewrite Hr; apply rank_sort_sorted |].
  split; [intros k; rewrite Hr; apply with_rank_sort |].
  split; [exact Hb |].
  rewrite <- join_crlf_terminated by (unfold header_lines; discriminate).
  congruence.
Qed.

Lemma build_icalendar_sorted_stable_witness :
  exists out normalised sorted blocks,
    build_icalendar sample_clock [sample_vigil; sample_new_year; sample_day] None
    = Ok out
    /\ list_sort normalised = Ok sorted
    /\ map uid (with_rank ((Date 2025 4 20, Time 0 0 0), "Easter Sunday") sorted)
       = ["vigil@example.org"; "day@example.org"]
    /\ mapM (event_lines (strftime_stamp sample_clock)) sorted = Ok blocks
    /\ out = Spec.crlf_terminated
               (header_lines default_config ++ List.concat blocks
                  ++ ["END:VCALENDAR"])%list.
Proof.
  destruct (build_icalendar sample_clock
                            [sample_vigil; sample_new_year; sample_day] None)
    as [out | e] eqn:H; [| vm_compute in H; discriminate H].
  destruct (build_icalendar_sorted_stable _ _ _ H)
    as (n & s & blocks & Hn & Hs & _ & _ & Hk & Hb & Hout).
  exists out, n, s, blocks.
  split; [reflexivity | split; [exact Hs | split; [| split; [exact Hb | exact Hout]]]].
  rewrite Hk. vm_compute in Hn. injection Hn as <-. reflexivity.
Defined.

(** ** Dates written in ISO format *)

(** A string that starts with a date in ISO format resolves to that date,
    whatever follows the first ten characters (a time, a zone, or anything
    else). *)
Theorem parse_date_iso_prefix (d : date) (rest : string) :
  Dt.valid d = true ->
  _parse_date (VStr (Dt.isoformat d ++ rest)) = Ok (DDate d).
Proof. intros Hv. exact (parse_date_starts_with_date d rest Hv). Qed.

Lemma parse_date_iso_prefix_witness :
  Dt.valid (Date 2025 1 1) = true
  /\ _parse_date (VStr "2025-01-01T00:00:00.000Z") = Ok (DDate (Date 2025 1 1)).
Proof.
  split; [reflexivity |].
  apply (parse_date_iso_prefix (Date 2025 1 1) "T00:00:00.000Z"). reflexivity.
Defined.

(** ** Identifiers, summaries and the header *)

Lemma derived_uid_deterministic_witness :
  exists c1 c2 : canonical,
    _normalise_event sample_easter default_config = Ok c1
    /\ _normalise_event sample_easter_note default_config = Ok c2
    /\ description c1 <> description c2
    /\ uid c1 = uid c2.
Proof.
  destruct (_normalise_event sample_easter default_config)
    as [c1 | e] eqn:H1; [| vm_compute in H1; discriminate H1].
  destruct (_normalise_event sample_easter_note default_config)
    as [c2 | e] eqn:H2; [| vm_compute in H2; discriminate H2].
  exists c1, c2. split; [reflexivity | split; [reflexivity |]].
  assert (Hd : date_of c1 = date_of c2)
    by (vm_compute in H1, H2; injection H1 as <-; injection H2 as <-;
        reflexivity).
  split.
  - vm_compute in H1, H2. injection H1 as <-. injection H2 as <-. discriminate.
  - apply (@derived_uid_deterministic sample_easter sample_easter_note
             default_config c1 c2 "easter-sunday");
      try reflexivity; assumption.
Defined.

(** A feed is produced only from records whose summary is a string and
    whose date objects are all dates or all datetimes: any other list of
    records makes [build_icalendar] raise. *)
Theorem build_icalendar_requirements
        (now : clock) (events : list dict) (config : option CalendarConfig)
        (out : string) :
  let cfg := match config with Some c => c | None => default_config end in
  build_icalendar now events config = Ok out ->
  (forall event, In event events -> exists s, event_summary event = VStr s)
  /\ (forall e1 e2 c1 c2,
         In e1 events -> In e2 events ->
         _normalise_event e1 cfg = Ok c1 -> _normalise_event e2 cfg = Ok c2 ->
         is_plain_date c1 = is_plain_date c2).
Proof.
  intros cfg. unfold build_icalendar. fold cfg.
  destruct (mapM (fun event => _normalise_event event cfg) events)
    as [n | e] eqn:Hn; cbn [bind]; [| discriminate].
  destruct (list_sort n) as [s | e] eqn:Hs; cbn [bind]; [| discriminate].
  destruct (mapM (event_lines (strftime_stamp now)) s)
    as [blocks | e] eqn:Hb; cbn [bind]; [| discriminate].
  intros _. pose proof (list_sort_perm _ Hs) as Hp. split.
  - intros event Hin.
    destruct (proj1 (mapM_ok_in _ _ Hn) event Hin) as (c & Hc & Hcn).
    apply (Permutation_in c Hp) in Hcn.
    destruct (proj1 (mapM_ok_in _ _ Hb) c Hcn) as (ls & Hls & _).
    apply event_lines_text in Hls. unfold has_text_summary in Hls.
    destruct (normalise_event_inv _ _ Hc) as (_ & Hsum & _).
    rewrite <- Hsum. destruct (summary c); try discriminate Hls.
    eexists. reflexivity.
  - intros e1 e2 c1 c2 Hin1 Hin2 H1 H2.
    destruct (proj1 (mapM_ok_in _ _ Hn) e1 Hin1) as (c1' & Hc1 & Hn1).
    destruct (proj1 (mapM_ok_in _ _ Hn) e2 Hin2) as (c2' & Hc2 & Hn2).
    cbv beta in Hc1, Hc2. rewrite H1 in Hc1. rewrite H2 in Hc2.
    injection Hc1 as <-. injection Hc2 as <-.
    exact (list_sort_kind _ Hs c1 c2 Hn1 Hn2).
Qed.

Lemma build_icalendar_requirements_witness :
  exists out,
    build_icalendar sample_clock [sample_easter; sample_new_year] None = Ok out
    /\ exists s, event_summary sample_easter = VStr s.
Proof.
  destruct (build_icalendar sample_clock [sample_easter; sample_new_year] None)
    as [out | e] eqn:H; [| vm_compute in H; discriminate H].
  exists out. split; [reflexivity |].
  apply (proj1 (build_icalendar_requirements _ _ _ H)). left. reflexivity.
Defined.

(** The header lines are not folded: with a product id of more than 68
    characters and without line feed, the second physical line of the feed
    (the text cut at the terminators CR LF) is the product id line in full,
    of more than 75 characters, for every list of records the feed is
    produced from. *)
Theorem header_not_folded
        (now : clock) (events : list dict) (cfg : CalendarConfig) (out : string) :
  (68 < String.length (prodid cfg))%nat ->
  Str.contains LF (prodid cfg) = false ->
  build_icalendar now events (Some cfg) = Ok out ->
  nth 1 (physical_lines out) "" = "PRODID:" ++ prodid cfg
  /\ (75 < String.length (nth 1 (physical_lines out) ""))%nat.
Proof.
  intros Hlen Hlf. unfold build_icalendar.
  destruct (mapM (fun event => _normalise_event event cfg) events)
    as [n | e]; cbn [bind]; [| discriminate].
  destruct (list_sort n) as [s | e]; cbn [bind]; [| discriminate].
  destruct (mapM (event_lines (strftime_stamp now)) s)
    as [blocks | e]; cbn [bind]; [| discriminate].
  intros Hout.
  assert (Heq : out = Spec.crlf_terminated
                  (header_lines cfg ++ List.concat blocks ++ ["END:VCALENDAR"])%list).
  { rewrite <- join_crlf_terminated by (unfold header_lines; discriminate).
    congruence. }
  assert (Hline : nth 1 (physical_lines out) "" = "PRODID:" ++ prodid cfg).
  { rewrite Heq. unfold header_lines.
    cbn [app Spec.crlf_terminated fold_right].
    rewrite physical_lines_cons by reflexivity.
    rewrite physical_lines_cons
      by (rewrite contains_append, Hlf; reflexivity).
    reflexivity. }
  split; [exact Hline |].
  rewrite Hline, length_append. cbn [String.length]. lia.
Qed.

Lemma header_not_folded_witness :
  (68 < String.length (prodid sample_long_prodid))%nat
  /\ Str.contains LF (prodid sample_long_prodid) = false
  /\ exists out,
      build_icalendar sample_clock [] (Some sample_long_prodid) = Ok out
      /\ (75 < String.length (nth 1 (physical_lines out) ""))%nat.
Proof.
  assert (Hl : (68 < String.length (prodid sample_long_prodid))%nat)
    by (vm_compute; lia).
  assert (Hc : Str.contains LF (prodid sample_long_prodid) = false)
    by reflexivity.
  split; [exact Hl | split; [exact Hc |]].
  destruct (build_icalendar sample_clock [] (Some sample_long_prodid))
    as [out | e] eqn:H; [| vm_compute in H; discriminate H].
  exists out. split; [reflexivity |].
  exact (proj2 (@header_not_folded sample_clock [] sample_long_prodid out Hl Hc H)).
Defined.
